(** * Overlay visibility controller of the Alveus Twitch extension

    Shallow embedding of [src/pages/overlay/components/overlay/Overlay.tsx]:
    the chat-command callback, the auto-dismiss timer, the "awoken"
    interaction callback, the body-click handler and the unmount cleanup.

    React state ([useState]) and refs ([useRef]) are fields of one record;
    the browser's timer table, its clock and the calls made to the [wake]
    prop are fields of the same record, so that every handler is a function
    from worlds to worlds. *)

From Stdlib Require Import String Ascii List NArith Bool Lia.
Import ListNotations.

Local Open Scope N_scope.

(** ** Data *)

(** [typeof overlayOptions[number]['key']] *)
Inductive OverlayKey : Type :=
  | Key_welcome
  | Key_ambassadors
  | Key_settings.

(** [AmbassadorKey] is a union of string literals declared in
    [utils/ambassadors]; a value of that type is the command string itself. *)
Definition AmbassadorKey : Type := string.

(** The part of [Settings] the component reads: [settings.disableChatPopup.value]. *)
Record Settings : Type := mkSettings { disableChatPopup : bool }.

(** Handle returned by [setTimeout]. *)
Definition TimerId : Type := N.

(** The only closure ever passed to [setTimeout]:
    [() => { setVisibleOption(undefined) }]. *)
Inductive Callback : Type :=
  | DismissOverlay.

(** A pending entry of the timer table. *)
Record Timer : Type := mkTimer {
  timerId : TimerId;
  deadline : N;
  callback : Callback
}.

(** What [bodyClick] reads of an element returned by
    [document.elementsFromPoint]: whether it is [document.body], and two
    properties of its computed style. *)
Record Element : Type := mkElement {
  isBody : bool;
  backgroundImage : string;
  backgroundColor : string
}.

Record World : Type := mkWorld {
  (* component state *)
  commandAmbassador : option AmbassadorKey;   (* useState<AmbassadorKey>() *)
  visibleOption : option OverlayKey;          (* useState<OverlayKey>() *)
  timeoutRef : option TimerId;                (* timeoutRef.current *)
  awakingRef : bool;                          (* awakingRef.current *)
  (* props *)
  settings : Settings;
  (* environment *)
  clock : N;
  timers : list Timer;                        (* pending timeouts, oldest first *)
  nextTimer : TimerId;                        (* next handle [setTimeout] returns *)
  fired : list (TimerId * N);                 (* timeouts that ran, with their time *)
  wakeCalls : list N                          (* arguments [wake] was called with *)
}.

Definition commandDelay : N := 8000.

Definition initial (s : Settings) : World :=
  {| commandAmbassador := None; visibleOption := None;
     timeoutRef := None; awakingRef := false;
     settings := s;
     clock := 0; timers := []; nextTimer := 1; fired := []; wakeCalls := [] |}.

(** ** Field updates *)

Definition setCommandAmbassador (k : AmbassadorKey) (w : World) : World :=
  {| commandAmbassador := Some k; visibleOption := visibleOption w;
     timeoutRef := timeoutRef w; awakingRef := awakingRef w;
     settings := settings w; clock := clock w; timers := timers w;
     nextTimer := nextTimer w; fired := fired w; wakeCalls := wakeCalls w |}.

Definition setVisibleOption (v : option OverlayKey) (w : World) : World :=
  {| commandAmbassador := commandAmbassador w; visibleOption := v;
     timeoutRef := timeoutRef w; awakingRef := awakingRef w;
     settings := settings w; clock := clock w; timers := timers w;
     nextTimer := nextTimer w; fired := fired w; wakeCalls := wakeCalls w |}.

Definition setTimeoutRef (h : option TimerId) (w : World) : World :=
  {| commandAmbassador := commandAmbassador w; visibleOption := visibleOption w;
     timeoutRef := h; awakingRef := awakingRef w;
     settings := settings w; clock := clock w; timers := timers w;
     nextTimer := nextTimer w; fired := fired w; wakeCalls := wakeCalls w |}.

Definition setAwakingRef (b : bool) (w : World) : World :=
  {| commandAmbassador := commandAmbassador w; visibleOption := visibleOption w;
     timeoutRef := timeoutRef w; awakingRef := b;
     settings := settings w; clock := clock w; timers := timers w;
     nextTimer := nextTimer w; fired := fired w; wakeCalls := wakeCalls w |}.

Definition setSettings (s : Settings) (w : World) : World :=
  {| commandAmbassador := commandAmbassador w; visibleOption := visibleOption w;
     timeoutRef := timeoutRef w; awakingRef := awakingRef w;
     settings := s; clock := clock w; timers := timers w;
     nextTimer := nextTimer w; fired := fired w; wakeCalls := wakeCalls w |}.

Definition setClock (t : N) (w : World) : World :=
  {| commandAmbassador := commandAmbassador w; visibleOption := visibleOption w;
     timeoutRef := timeoutRef w; awakingRef := awakingRef w;
     settings := settings w; clock := t; timers := timers w;
     nextTimer := nextTimer w; fired := fired w; wakeCalls := wakeCalls w |}.

Definition setTimers (ts : list Timer) (w : World) : World :=
  {| commandAmbassador := commandAmbassador w; visibleOption := visibleOption w;
     timeoutRef := timeoutRef w; awakingRef := awakingRef w;
     settings := settings w; clock := clock w; timers := ts;
     nextTimer := nextTimer w; fired := fired w; wakeCalls := wakeCalls w |}.

(** ** Browser timers and the [wake] prop *)

Definition keepOthers (h : TimerId) (tm : Timer) : bool := negb (timerId tm =? h).

(** [clearTimeout(h)]: drops the pending entry with handle [h], if there is
    one; the handle of a timeout that already ran or was cleared matches
    nothing. *)
Definition clearTimeout (h : TimerId) (w : World) : World :=
  setTimers (filter (keepOthers h) (timers w)) w.

(** [setTimeout(cb, delay)]: a fresh handle, due [delay] after now. *)
Definition setTimeout (cb : Callback) (delay : N) (w : World) : TimerId * World :=
  let h := nextTimer w in
  (h,
   {| commandAmbassador := commandAmbassador w; visibleOption := visibleOption w;
      timeoutRef := timeoutRef w; awakingRef := awakingRef w;
      settings := settings w; clock := clock w;
      timers := timers w ++ [mkTimer h (clock w + delay) cb];
      nextTimer := N.succ h; fired := fired w; wakeCalls := wakeCalls w |}).

(** [wake(time)] is a prop of the component; the call is recorded. *)
Definition wake (time : N) (w : World) : World :=
  {| commandAmbassador := commandAmbassador w; visibleOption := visibleOption w;
     timeoutRef := timeoutRef w; awakingRef := awakingRef w;
     settings := settings w; clock := clock w; timers := timers w;
     nextTimer := nextTimer w; fired := fired w;
     wakeCalls := wakeCalls w ++ [time] |}.

(** [if (timeoutRef.current) clearTimeout(timeoutRef.current)]; the ref keeps
    its handle afterwards. *)
Definition clearPending (w : World) : World :=
  match timeoutRef w with
  | Some h => clearTimeout h w
  | None => w
  end.

Definition runCallback (cb : Callback) (w : World) : World :=
  match cb with
  | DismissOverlay => setVisibleOption None w
  end.

(** A due timeout leaves the table, is logged, and its callback runs. *)
Definition fireTimer (w : World) (tm : Timer) : World :=
  let w1 := setTimers (filter (keepOthers (timerId tm)) (timers w)) w in
  let w2 :=
    {| commandAmbassador := commandAmbassador w1; visibleOption := visibleOption w1;
       timeoutRef := timeoutRef w1; awakingRef := awakingRef w1;
       settings := settings w1; clock := clock w1; timers := timers w1;
       nextTimer := nextTimer w1;
       fired := fired w1 ++ [(timerId tm, deadline tm)];
       wakeCalls := wakeCalls w1 |} in
  runCallback (callback tm) w2.

Definition isDue (t : N) (tm : Timer) : bool := deadline tm <=? t.

(** [dt] time units pass with no other event: every timeout whose deadline
    is reached runs, oldest first. *)
Definition elapse (dt : N) (w : World) : World :=
  let t := clock w + dt in
  setClock t (fold_left fireTimer (filter (isDue t) (timers w)) w).

(** ** bodyClick *)

(** [style.backgroundImage !== 'none' || style.backgroundColor !== 'rgba(0, 0, 0, 0)'] *)
Definition hasBackground (e : Element) : bool :=
  negb (backgroundImage e =? "none")%string
  || negb (backgroundColor e =? "rgba(0, 0, 0, 0)")%string.

(** The [for ... of] loop of [bodyClick]: [false] when it leaves through
    [return], [true] when it ends through [break] or by exhausting the list. *)
Fixpoint reachesBody (elements : list Element) : bool :=
  match elements with
  | [] => true
  | element :: rest =>
      if isBody element then true
      else if hasBackground element then false
      else reachesBody rest
  end.

Definition bodyClick (elements : list Element) (w : World) : World :=
  if reachesBody elements then setVisibleOption None w else w.

(** ** The component, over the catalogue's key test *)

Inductive Event : Type :=
  | ChatCommand (command : string)            (* useChatCommand delivers a command *)
  | Awoken                                    (* the awoken callbacks are invoked *)
  | BodyClick (elements : list Element)       (* click on document.body *)
  | ButtonClick (key : option OverlayKey)     (* Buttons onClick = setVisibleOption *)
  | NewSettings (s : Settings)                (* re-render with other settings *)
  | Elapse (dt : N).                          (* time passes *)

(** The README's examples of ambassador commands, as a catalogue. *)
Definition readmeKeys (command : string) : bool :=
  (command =? "nilla")%string || (command =? "snork")%string.

(** A catalogue that has an ambassador called "welcome". *)
Definition welcomeKeys (command : string) : bool :=
  (command =? "welcome")%string.

Definition enabled : Settings := mkSettings false.
Definition disabled : Settings := mkSettings true.

Definition transparentDiv : Element := mkElement false "none" "rgba(0, 0, 0, 0)".
Definition cardDiv : Element := mkElement false "none" "rgb(255, 255, 255)".
Definition documentBody : Element := mkElement true "none" "rgba(0, 0, 0, 0)".
Definition glassDiv : Element := mkElement false "none" "rgba(255, 255, 255, 0)".

(** ** The specification's wording of the background test *)

Fixpoint endsWith (suffix s : string) : bool :=
  (s =? suffix)%string ||
  match s with
  | EmptyString => false
  | String _ rest => endsWith suffix rest
  end.

(** A computed colour whose alpha channel is 0: [rgba(r, g, b, 0)]. *)
Definition fullyTransparentColor (color : string) : bool :=
  String.prefix "rgba(" color && endsWith ", 0)" color.

(** The specification's words: a surface has a non-transparent background
    when it has a background image, or a background colour other than a
    fully transparent one. To be compared with [hasBackground], the test
    the code makes. *)
Definition specNonTransparent (e : Element) : bool :=
  negb (backgroundImage e =? "none")%string
  || negb (fullyTransparentColor (backgroundColor e)).

(** ** Rendering of the options *)

(** The keys of [overlayOptions], in order. *)
Definition overlayOptions : list OverlayKey :=
  [Key_welcome; Key_ambassadors; Key_settings].

Definition OverlayKey_eqb (a b : OverlayKey) : bool :=
  match a, b with
  | Key_welcome, Key_welcome => true
  | Key_ambassadors, Key_ambassadors => true
  | Key_settings, Key_settings => true
  | _, _ => false
  end.

(** [visibleOption !== option.key], the condition under which an option's
    component gets [styles.optionHidden]. *)
Definition optionHidden (visible : option OverlayKey) (key : OverlayKey) : bool :=
  match visible with
  | Some v => negb (OverlayKey_eqb v key)
  | None => true
  end.

(** [overlayOptions.map(option => ...)]: every option is rendered, with
    its hidden flag. *)
Definition renderOptions (w : World) : list (OverlayKey * bool) :=
  map (fun key => (key, optionHidden (visibleOption w) key)) overlayOptions.

(** ** Elements ahead of the body *)

(** The elements the loop of [bodyClick] can inspect: those ahead of the
    first [document.body]. *)
Fixpoint beforeBody (elements : list Element) : list Element :=
  match elements with
  | [] => []
  | element :: rest =>
      if isBody element then [] else element :: beforeBody rest
  end.

(** ** Kinds of events *)

Definition opensSettings (ev : Event) : bool :=
  match ev with
  | ButtonClick (Some Key_settings) => true
  | _ => false
  end.

(** Events that do not switch the chat popup back on. *)
Definition keepsDisabled (ev : Event) : bool :=
  match ev with
  | NewSettings s => disableChatPopup s
  | _ => true
  end.

(** ** AmbassadorCard: offsetPosition *)

(** [s.split(" ")]: the pieces of [s] between single spaces; never empty. *)
Fixpoint splitSpace (s : string) : list string :=
  match s with
  | EmptyString => [EmptyString]
  | String c rest =>
      if Ascii.eqb c " "%char then EmptyString :: splitSpace rest
      else match splitSpace rest with
           | piece :: pieces => String c piece :: pieces
           | [] => [String c EmptyString]
           end
  end.

Fixpoint hasSpace (s : string) : bool :=
  match s with
  | EmptyString => false
  | String c rest => Ascii.eqb c " "%char || hasSpace rest
  end.

(** A value interpolated in a template literal; [undefined] prints as
    "undefined". *)
Definition interpolate (v : option string) : string :=
  match v with
  | Some s => s
  | None => "undefined"
  end.

(** [position || "50% 50%"]: [undefined] and the empty string are falsy. *)
Definition positionOrDefault (position : option string) : string :=
  match position with
  | Some EmptyString | None => "50% 50%"
  | Some p => p
  end.

(** [const [x, y] = (position || "50% 50%").split(" ");
     return `${x} min(calc(${y} + 1.5rem), 0%)`] *)
Definition offsetPosition (position : option string) : string :=
  let parts := splitSpace (positionOrDefault position) in
  let x := nth_error parts 0 in
  let y := nth_error parts 1 in
  (interpolate x ++ " min(calc(" ++ interpolate y ++ " + 1.5rem), 0%)")%string.

Section Overlay.

(** [isAmbassadorKey] is imported from [utils/ambassadors]. *)
Variable isAmbassadorKey : string -> bool.

(** The panel [setVisibleOption] is called with:
    [command === 'welcome' ? 'welcome' : 'ambassadors']. *)
Definition commandPanel (command : string) : OverlayKey :=
  if (command =? "welcome")%string then Key_welcome else Key_ambassadors.

(** Lines 76 to 87: show the card, restart the dismiss timer, wake. *)
Definition showAndWake (command : string) (w : World) : World :=
  let w1 := setVisibleOption (Some (commandPanel command)) w in
  let w2 := clearPending w1 in
  let (h, w3) := setTimeout DismissOverlay commandDelay w2 in
  let w4 := setTimeoutRef (Some h) w3 in
  let w5 := setAwakingRef true w4 in
  wake commandDelay w5.

(** The callback given to [useChatCommand]. *)
Definition onCommand (command : string) (w : World) : World :=
  if negb (disableChatPopup (settings w)) then
    if isAmbassadorKey command then
      showAndWake command (setCommandAmbassador command w)
    else if negb (command =? "welcome")%string then w   (* return *)
    else showAndWake command w
  else w.

(** The callback registered with [awoken.add]. *)
Definition awokenCallback (w : World) : World :=
  if awakingRef w then setAwakingRef false w
  else clearPending w.

(** The cleanup of the mount effect. *)
Definition unmountCleanup (w : World) : World := clearPending w.

Definition step (w : World) (ev : Event) : World :=
  match ev with
  | ChatCommand command => onCommand command w
  | Awoken => awokenCallback w
  | BodyClick elements => bodyClick elements w
  | ButtonClick key => setVisibleOption key w
  | NewSettings s => setSettings s w
  | Elapse dt => elapse dt w
  end.

Definition run (evs : list Event) (w : World) : World := fold_left step evs w.

Inductive reachable : World -> Prop :=
  | reachable_initial : forall s, reachable (initial s)
  | reachable_step : forall w ev, reachable w -> reachable (step w ev).

(** A command the callback acts on. *)
Definition recognized (command : string) : bool :=
  isAmbassadorKey command || (command =? "welcome")%string.

(** The subject a trace leaves behind, read off the commands alone: the
    last ambassador key delivered while the popup was enabled. *)
Fixpoint lastSubject (evs : list Event) (s : Settings)
    (cur : option AmbassadorKey) : option AmbassadorKey :=
  match evs with
  | [] => cur
  | ChatCommand command :: rest =>
      if negb (disableChatPopup s) && isAmbassadorKey command
      then lastSubject rest s (Some command)
      else lastSubject rest s cur
  | NewSettings s' :: rest => lastSubject rest s' cur
  | _ :: rest => lastSubject rest s cur
  end.

(** Two commands, [gap] time units apart, with no other event between. *)
Definition twoCommands (c1 : string) (gap : N) (c2 : string) (w : World) : World :=
  onCommand c2 (elapse gap (onCommand c1 w)).

Definition isChatCommand (ev : Event) : bool :=
  match ev with
  | ChatCommand _ => true
  | _ => false
  end.

(** What is known of the timer table in every reachable world. *)
Record timersOk (w : World) : Prop := {
  ok_single : timers w = [] \/
              exists tm, timers w = [tm] /\ timeoutRef w = Some (timerId tm);
  ok_pending_fresh : forall tm, In tm (timers w) -> timerId tm < nextTimer w;
  ok_fired_fresh : forall p, In p (fired w) -> fst p < nextTimer w;
  ok_not_due : forall tm, In tm (timers w) -> clock w < deadline tm
}.

(** A handle that was handed out, is not pending and has not run. *)
Definition cancelled (h : TimerId) (w : World) : Prop :=
  h < nextTimer w /\
  ~ In h (map timerId (timers w)) /\
  ~ In h (map fst (fired w)).

(** What is known of the logs, the handles and the subject in every
    reachable world. *)
Record logsOk (w : World) : Prop := {
  lg_wake_args : Forall (fun t => t = commandDelay) (wakeCalls w);
  lg_wake_count : N.of_nat (length (wakeCalls w)) + 1 = nextTimer w;
  lg_ref : match timeoutRef w with
           | Some h => N.succ h = nextTimer w /\ 1 <= h
           | None => nextTimer w = 1
           end;
  lg_deadline : forall tm, In tm (timers w) ->
                deadline tm <= clock w + commandDelay;
  lg_fired_nodup : NoDup (map fst (fired w));
  lg_pending_unfired : forall tm, In tm (timers w) ->
                       ~ In (timerId tm) (map fst (fired w));
  lg_fired_past : forall p, In p (fired w) -> snd p <= clock w;
  lg_fired_count : (length (fired w) + length (timers w)
                    <= length (wakeCalls w))%nat;
  lg_subject : forall k, commandAmbassador w = Some k ->
               isAmbassadorKey k = true
}.

(** ** Timers: cancelling *)

Lemma setTimers_same (w : World) : setTimers (timers w) w = w.
Proof. destruct w; reflexivity. Qed.

Lemma filter_keepOthers_absent (h : TimerId) (ts : list Timer) :
  ~ In h (map timerId ts) -> filter (keepOthers h) ts = ts.
Proof.
  induction ts as [|tm ts IH]; simpl; intros Hn; [reflexivity|].
  unfold keepOthers at 1.
  destruct (N.eqb_spec (timerId tm) h) as [E|E]; simpl.
  - exfalso. apply Hn. now left.
  - f_equal. apply IH. intros Hin. apply Hn. now right.
Qed.

Lemma filter_keepOthers_idem (h : TimerId) (ts : list Timer) :
  filter (keepOthers h) (filter (keepOthers h) ts) = filter (keepOthers h) ts.
Proof.
  induction ts as [|tm ts IH]; simpl; [reflexivity|].
  destruct (keepOthers h tm) eqn:E; simpl; [rewrite E; f_equal|]; exact IH.
Qed.

Lemma filter_keepOthers_gone (h : TimerId) (ts : list Timer) :
  ~ In h (map timerId (filter (keepOthers h) ts)).
Proof.
  intros Hin. apply in_map_iff in Hin. destruct Hin as [tm [E Hin]].
  apply filter_In in Hin. destruct Hin as [_ Hk].
  unfold keepOthers in Hk. rewrite E, N.eqb_refl in Hk. discriminate.
Qed.

Lemma clearTimeout_absent (h : TimerId) (w : World) :
  ~ In h (map timerId (timers w)) -> clearTimeout h w = w.
Proof.
  intros Hn. unfold clearTimeout.
  rewrite (filter_keepOthers_absent _ _ Hn). apply setTimers_same.
Qed.

Lemma clearTimeout_idem (h : TimerId) (w : World) :
  clearTimeout h (clearTimeout h w) = clearTimeout h w.
Proof.
  unfold clearTimeout, setTimers; simpl.
  now rewrite filter_keepOthers_idem.
Qed.

Lemma clearPending_no_timers (w : World) :
  timers w = [] -> clearPending w = w.
Proof.
  intros E. unfold clearPending. destruct (timeoutRef w) as [h|]; [|reflexivity].
  apply clearTimeout_absent. rewrite E. simpl. tauto.
Qed.

Lemma clearPending_timers (w : World) :
  timersOk w -> timers (clearPending w) = [].
Proof.
  intros [[E|[tm [E R]]] _ _ _]; unfold clearPending.
  - destruct (timeoutRef w); simpl; rewrite ?E; reflexivity.
  - rewrite R. simpl. rewrite E. simpl. unfold keepOthers.
    now rewrite N.eqb_refl.
Qed.

Lemma clearPending_frame (w : World) :
  commandAmbassador (clearPending w) = commandAmbassador w /\
  visibleOption (clearPending w) = visibleOption w /\
  timeoutRef (clearPending w) = timeoutRef w /\
  awakingRef (clearPending w) = awakingRef w /\
  settings (clearPending w) = settings w /\
  clock (clearPending w) = clock w /\
  nextTimer (clearPending w) = nextTimer w /\
  fired (clearPending w) = fired w /\
  wakeCalls (clearPending w) = wakeCalls w.
Proof.
  unfold clearPending. destruct (timeoutRef w) eqn:E; simpl; rewrite ?E; tauto.
Qed.

(** ** Timers: firing *)

Lemma elapse_no_timers (w : World) (dt : N) :
  timers w = [] -> elapse dt w = setClock (clock w + dt) w.
Proof. intros E. unfold elapse. now rewrite E. Qed.

Lemma elapse_early (w : World) (dt : N) (tm : Timer) :
  timers w = [tm] -> clock w + dt < deadline tm ->
  elapse dt w = setClock (clock w + dt) w.
Proof.
  intros E Hlt. unfold elapse. rewrite E. simpl. unfold isDue.
  destruct (N.leb_spec (deadline tm) (clock w + dt)); [lia|reflexivity].
Qed.

Lemma elapse_due (w : World) (dt : N) (tm : Timer) :
  timers w = [tm] -> deadline tm <= clock w + dt ->
  elapse dt w = setClock (clock w + dt) (fireTimer w tm).
Proof.
  intros E Hle. unfold elapse. rewrite E. simpl. unfold isDue.
  destruct (N.leb_spec (deadline tm) (clock w + dt)); [reflexivity|lia].
Qed.

Lemma fireTimer_single (w : World) (tm : Timer) :
  timers w = [tm] ->
  fireTimer w tm =
  {| commandAmbassador := commandAmbassador w; visibleOption := None;
     timeoutRef := timeoutRef w; awakingRef := awakingRef w;
     settings := settings w; clock := clock w; timers := [];
     nextTimer := nextTimer w;
     fired := fired w ++ [(timerId tm, deadline tm)];
     wakeCalls := wakeCalls w |}.
Proof.
  intros E. unfold fireTimer. destruct (callback tm). simpl.
  rewrite E. simpl. unfold keepOthers. now rewrite N.eqb_refl.
Qed.

(** Firing touches [visibleOption], the timer table and the log only. *)
Lemma fireTimer_frame (w : World) (tm : Timer) :
  commandAmbassador (fireTimer w tm) = commandAmbassador w /\
  visibleOption (fireTimer w tm) = None /\
  timeoutRef (fireTimer w tm) = timeoutRef w /\
  awakingRef (fireTimer w tm) = awakingRef w /\
  settings (fireTimer w tm) = settings w /\
  nextTimer (fireTimer w tm) = nextTimer w /\
  wakeCalls (fireTimer w tm) = wakeCalls w.
Proof. unfold fireTimer. destruct (callback tm). simpl. tauto. Qed.

Lemma fold_fireTimer_frame (due : list Timer) (w : World) :
  let w' := fold_left fireTimer due w in
  commandAmbassador w' = commandAmbassador w /\
  (visibleOption w' = visibleOption w \/ visibleOption w' = None) /\
  timeoutRef w' = timeoutRef w /\
  awakingRef w' = awakingRef w /\
  settings w' = settings w /\
  nextTimer w' = nextTimer w /\
  wakeCalls w' = wakeCalls w.
Proof.
  revert w. induction due as [|tm due IH]; intros w; simpl.
  - tauto.
  - specialize (IH (fireTimer w tm)). simpl in IH.
    pose proof (fireTimer_frame w tm) as F.
    destruct IH as (A & B & C & D & E & G & H).
    destruct F as (A' & B' & C' & D' & E' & G' & H').
    rewrite A, C, D, E, G, H. repeat split; try assumption.
    right. destruct B as [B|B]; congruence.
Qed.

Lemma elapse_frame (w : World) (dt : N) :
  commandAmbassador (elapse dt w) = commandAmbassador w /\
  (visibleOption (elapse dt w) = visibleOption w \/
   visibleOption (elapse dt w) = None) /\
  timeoutRef (elapse dt w) = timeoutRef w /\
  awakingRef (elapse dt w) = awakingRef w /\
  settings (elapse dt w) = settings w /\
  nextTimer (elapse dt w) = nextTimer w /\
  wakeCalls (elapse dt w) = wakeCalls w.
Proof.
  unfold elapse. simpl.
  apply (fold_fireTimer_frame (filter (isDue (clock w + dt)) (timers w)) w).
Qed.

(** ** The chat command *)

(** Without any assumption on the world: what [showAndWake] does to every
    field, the prior handle being cleared from the table. *)
Lemma showAndWake_unfold (command : string) (w : World) :
  showAndWake command w =
  {| commandAmbassador := commandAmbassador w;
     visibleOption := Some (commandPanel command);
     timeoutRef := Some (nextTimer w); awakingRef := true;
     settings := settings w; clock := clock w;
     timers := timers (clearPending w)
               ++ [mkTimer (nextTimer w) (clock w + commandDelay) DismissOverlay];
     nextTimer := N.succ (nextTimer w); fired := fired w;
     wakeCalls := wakeCalls w ++ [commandDelay] |}.
Proof.
  unfold showAndWake, clearPending. simpl.
  destruct (timeoutRef w); reflexivity.
Qed.

Lemma showAndWake_eq (command : string) (w : World) :
  timersOk w ->
  showAndWake command w =
  {| commandAmbassador := commandAmbassador w;
     visibleOption := Some (commandPanel command);
     timeoutRef := Some (nextTimer w); awakingRef := true;
     settings := settings w; clock := clock w;
     timers := [mkTimer (nextTimer w) (clock w + commandDelay) DismissOverlay];
     nextTimer := N.succ (nextTimer w); fired := fired w;
     wakeCalls := wakeCalls w ++ [commandDelay] |}.
Proof.
  intros Hok. rewrite showAndWake_unfold.
  now rewrite (clearPending_timers w Hok).
Qed.

Lemma onCommand_recognized (command : string) (w : World) :
  disableChatPopup (settings w) = false ->
  recognized command = true ->
  onCommand command w =
  showAndWake command
    (if isAmbassadorKey command then setCommandAmbassador command w else w).
Proof.
  intros Hen Hrec. unfold onCommand. rewrite Hen. simpl.
  unfold recognized in Hrec.
  destruct (isAmbassadorKey command); [reflexivity|].
  simpl in Hrec. now rewrite Hrec.
Qed.

Lemma onCommand_cases (command : string) (w : World) :
  onCommand command w = w \/
  onCommand command w = showAndWake command w \/
  onCommand command w = showAndWake command (setCommandAmbassador command w).
Proof.
  unfold onCommand.
  destruct (negb (disableChatPopup (settings w))); [|now left].
  destruct (isAmbassadorKey command); [now right; right|].
  destruct (negb (command =? "welcome")%string); [now left|now right; left].
Qed.

(** ** The invariant *)

Lemma timersOk_ext (w w' : World) :
  timers w' = timers w -> timeoutRef w' = timeoutRef w ->
  nextTimer w' = nextTimer w -> fired w' = fired w -> clock w' = clock w ->
  timersOk w -> timersOk w'.
Proof.
  intros Et Er En Ef Ec [H1 H2 H3 H4].
  constructor; rewrite ?Et, ?Er, ?En, ?Ef, ?Ec; assumption.
Qed.

Lemma timersOk_initial (s : Settings) : timersOk (initial s).
Proof.
  constructor; simpl; try tauto; try (now left).
Qed.

Lemma timersOk_showAndWake (command : string) (w : World) :
  timersOk w -> timersOk (showAndWake command w).
Proof.
  intros Hok. rewrite (showAndWake_eq command w Hok).
  destruct Hok as [H1 H2 H3 H4].
  constructor; simpl.
  - right. eexists; split; reflexivity.
  - intros tm [E|[]]. subst tm. simpl. lia.
  - intros p Hin. specialize (H3 p Hin). lia.
  - intros tm [E|[]]. subst tm. simpl. unfold commandDelay. lia.
Qed.

Lemma timersOk_clearPending (w : World) :
  timersOk w -> timersOk (clearPending w).
Proof.
  intros Hok. pose proof (clearPending_timers w Hok) as Et.
  destruct (clearPending_frame w) as (_ & _ & Er & _ & _ & Ec & En & Ef & _).
  destruct Hok as [H1 H2 H3 H4].
  constructor; rewrite ?Et, ?Er, ?En, ?Ef, ?Ec; simpl; try tauto; try (now left).
Qed.

Lemma timersOk_onCommand (command : string) (w : World) :
  timersOk w -> timersOk (onCommand command w).
Proof.
  intros Hok.
  destruct (onCommand_cases command w) as [E|[E|E]]; rewrite E.
  - exact Hok.
  - now apply timersOk_showAndWake.
  - apply timersOk_showAndWake.
    now apply (timersOk_ext w (setCommandAmbassador command w)).
Qed.

Lemma timersOk_elapse (dt : N) (w : World) :
  timersOk w -> timersOk (elapse dt w).
Proof.
  intros Hok. destruct Hok as [H1 H2 H3 H4].
  destruct H1 as [E|[tm [E R]]].
  - rewrite (elapse_no_timers w dt E).
    constructor; simpl; rewrite ?E; simpl; try tauto; try (now left).
  - destruct (N.lt_ge_cases (clock w + dt) (deadline tm)) as [Hlt|Hge].
    + rewrite (elapse_early w dt tm E Hlt).
      constructor; simpl; rewrite ?E.
      * right. now exists tm.
      * intros x Hx. apply H2. now rewrite E.
      * exact H3.
      * intros x [Hx|[]]. now subst x.
    + rewrite (elapse_due w dt tm E Hge), (fireTimer_single w tm E).
      constructor; simpl; try tauto; try (now left).
      intros p Hin. apply in_app_or in Hin. destruct Hin as [Hin|[Hin|[]]].
      * now apply H3.
      * subst p. simpl. apply H2. rewrite E. now left.
Qed.

Lemma timersOk_step (w : World) (ev : Event) :
  timersOk w -> timersOk (step w ev).
Proof.
  intros Hok. destruct ev as [command| |elements|key|s|dt]; simpl.
  - now apply timersOk_onCommand.
  - unfold awokenCallback. destruct (awakingRef w).
    + now apply (timersOk_ext w).
    + now apply timersOk_clearPending.
  - unfold bodyClick. destruct (reachesBody elements); [|exact Hok].
    now apply (timersOk_ext w).
  - now apply (timersOk_ext w).
  - now apply (timersOk_ext w).
  - now apply timersOk_elapse.
Qed.

Lemma reachable_timersOk (w : World) : reachable w -> timersOk w.
Proof.
  induction 1 as [s|w ev _ IH].
  - apply timersOk_initial.
  - now apply timersOk_step.
Qed.


(** ** Shared facts about a command that is acted on *)

Lemma onCommand_fields (command : string) (w : World) :
  timersOk w ->
  disableChatPopup (settings w) = false ->
  recognized command = true ->
  visibleOption (onCommand command w) = Some (commandPanel command) /\
  timers (onCommand command w) =
    [mkTimer (nextTimer w) (clock w + commandDelay) DismissOverlay] /\
  timeoutRef (onCommand command w) = Some (nextTimer w) /\
  awakingRef (onCommand command w) = true /\
  wakeCalls (onCommand command w) = wakeCalls w ++ [commandDelay] /\
  clock (onCommand command w) = clock w /\
  fired (onCommand command w) = fired w /\
  nextTimer (onCommand command w) = N.succ (nextTimer w) /\
  settings (onCommand command w) = settings w /\
  commandAmbassador (onCommand command w) =
    (if isAmbassadorKey command then Some command else commandAmbassador w).
Proof.
  intros Hok Hen Hrec.
  rewrite (onCommand_recognized command w Hen Hrec).
  destruct (isAmbassadorKey command).
  - rewrite showAndWake_eq by now apply (timersOk_ext w).
    simpl. tauto.
  - rewrite showAndWake_eq by assumption. simpl. tauto.
Qed.

Lemma elapse_single_fields (w : World) (tm : Timer) (dt : N) :
  timers w = [tm] ->
  (clock w + dt < deadline tm ->
     visibleOption (elapse dt w) = visibleOption w /\
     timers (elapse dt w) = [tm] /\
     fired (elapse dt w) = fired w) /\
  (deadline tm <= clock w + dt ->
     visibleOption (elapse dt w) = None /\
     timers (elapse dt w) = [] /\
     fired (elapse dt w) = fired w ++ [(timerId tm, deadline tm)]).
Proof.
  intros E. split; intros H.
  - rewrite (elapse_early w dt tm E H). simpl. tauto.
  - rewrite (elapse_due w dt tm E H), (fireTimer_single w tm E). simpl. tauto.
Qed.

Lemma elapse_idle_fields (w : World) (dt : N) :
  timers w = [] ->
  visibleOption (elapse dt w) = visibleOption w /\
  timers (elapse dt w) = [] /\
  fired (elapse dt w) = fired w.
Proof.
  intros E. rewrite (elapse_no_timers w dt E). simpl. tauto.
Qed.

(** ** C1 *)

(** C1. A recognized command received while the popup is enabled shows the
    panel of the command, leaves none of the earlier timeouts pending,
    schedules one dismiss timeout 8000 units ahead and stores its handle,
    raises [awakingRef], and calls [wake] with 8000; as long as less than
    8000 units pass with no other event the panel stays and the timeout
    stays pending, and at 8000 units the timeout runs and the panel is
    cleared. *)
Theorem onCommand_shows_and_schedules_dismiss :
  forall (command : string) (w : World),
    reachable w ->
    disableChatPopup (settings w) = false ->
    recognized command = true ->
    (command = "welcome"%string ->
       visibleOption (onCommand command w) = Some Key_welcome) /\
    (command <> "welcome"%string ->
       visibleOption (onCommand command w) = Some Key_ambassadors) /\
    (forall tm, In tm (timers w) -> ~ In tm (timers (onCommand command w))) /\
    timers (onCommand command w) =
      [mkTimer (nextTimer w) (clock w + 8000) DismissOverlay] /\
    timeoutRef (onCommand command w) = Some (nextTimer w) /\
    awakingRef (onCommand command w) = true /\
    wakeCalls (onCommand command w) = wakeCalls w ++ [8000] /\
    (forall dt, dt < 8000 ->
       visibleOption (elapse dt (onCommand command w))
         = visibleOption (onCommand command w) /\
       timers (elapse dt (onCommand command w)) = timers (onCommand command w) /\
       fired (elapse dt (onCommand command w)) = fired w) /\
    visibleOption (elapse 8000 (onCommand command w)) = None /\
    timers (elapse 8000 (onCommand command w)) = [] /\
    fired (elapse 8000 (onCommand command w))
      = fired w ++ [(nextTimer w, clock w + 8000)].
Proof.
  intros command w Hr Hen Hrec.
  pose proof (reachable_timersOk w Hr) as Hok.
  destruct (onCommand_fields command w Hok Hen Hrec)
    as (Hv & Ht & Href & Haw & Hwk & Hc & Hf & _).
  unfold commandDelay in *.
  repeat split; try assumption.
  - intros E. rewrite Hv. unfold commandPanel.
    now rewrite (proj2 (String.eqb_eq _ _) E).
  - intros E. rewrite Hv. unfold commandPanel.
    now rewrite (proj2 (String.eqb_neq _ _) E).
  - intros tm Hin. rewrite Ht. intros [E|[]]. subst tm.
    apply (ok_pending_fresh w Hok) in Hin. simpl in Hin. lia.
  - destruct (elapse_single_fields _ _ dt Ht) as [He _].
    apply He. rewrite Hc. simpl. lia.
  - destruct (elapse_single_fields _ _ dt Ht) as [He _].
    rewrite Ht. apply He. rewrite Hc. simpl. lia.
  - destruct (elapse_single_fields _ _ dt Ht) as [He _].
    rewrite <- Hf. apply He. rewrite Hc. simpl. lia.
  - destruct (elapse_single_fields _ _ 8000 Ht) as [_ He].
    apply He. rewrite Hc. simpl. lia.
  - destruct (elapse_single_fields _ _ 8000 Ht) as [_ He].
    apply He. rewrite Hc. simpl. lia.
  - destruct (elapse_single_fields _ _ 8000 Ht) as [_ He].
    rewrite <- Hf. apply He. rewrite Hc. simpl. lia.
Qed.

(** ** C2 *)

(** C2 (amended). While the popup is enabled: a command that is a known
    ambassador key is recorded as [commandAmbassador]; the panel shown for
    a recognized command is Welcome when the command is the literal
    "welcome", whether or not it is also an ambassador key, and
    Ambassadors otherwise; so every ambassador key other than "welcome"
    shows Ambassadors, and "welcome" that is no ambassador key shows
    Welcome and leaves [commandAmbassador] as it was. *)
Theorem onCommand_subject_and_panel :
  forall (command : string) (w : World),
    disableChatPopup (settings w) = false ->
    (isAmbassadorKey command = true ->
       commandAmbassador (onCommand command w) = Some command /\
       visibleOption (onCommand command w) =
         Some (if (command =? "welcome")%string
               then Key_welcome else Key_ambassadors)) /\
    (isAmbassadorKey command = true -> command <> "welcome"%string ->
       visibleOption (onCommand command w) = Some Key_ambassadors) /\
    (isAmbassadorKey command = false -> command = "welcome"%string ->
       visibleOption (onCommand command w) = Some Key_welcome /\
       commandAmbassador (onCommand command w) = commandAmbassador w).
Proof.
  intros command w Hen. unfold onCommand. rewrite Hen. simpl.
  split; [|split].
  - intros Hk. rewrite Hk, showAndWake_unfold. simpl. now split.
  - intros Hk Hw. rewrite Hk, showAndWake_unfold. simpl. unfold commandPanel.
    now rewrite (proj2 (String.eqb_neq _ _) Hw).
  - intros Hk Hw. rewrite Hk, (proj2 (String.eqb_eq _ _) Hw). cbn [negb].
    rewrite showAndWake_unfold. simpl. unfold commandPanel.
    now rewrite (proj2 (String.eqb_eq _ _) Hw).
Qed.

(** ** C3 *)

(** C3. With [awakingRef] raised, the awoken callback lowers it and changes
    no other field, the timer table included. With [awakingRef] lowered, it
    clears the handle held in [timeoutRef] from the timer table and changes
    neither the visible panel nor any other field; in a reachable world no
    timeout is pending afterwards. After a recognized command the first
    call therefore leaves the dismiss pending and the second one cancels
    it, after which the panel stays however much time passes. *)
Theorem awokenCallback_consumes_then_cancels :
  forall (w : World),
    (awakingRef w = true -> awokenCallback w = setAwakingRef false w) /\
    (awakingRef w = false ->
       awokenCallback w = clearPending w /\
       visibleOption (awokenCallback w) = visibleOption w /\
       commandAmbassador (awokenCallback w) = commandAmbassador w /\
       timeoutRef (awokenCallback w) = timeoutRef w /\
       awakingRef (awokenCallback w) = false /\
       (forall h, timeoutRef w = Some h ->
          ~ In h (map timerId (timers (awokenCallback w)))) /\
       (reachable w -> timers (awokenCallback w) = [])) /\
    (forall command,
       reachable w ->
       disableChatPopup (settings w) = false ->
       recognized command = true ->
       timers (awokenCallback (onCommand command w))
         = [mkTimer (nextTimer w) (clock w + 8000) DismissOverlay] /\
       visibleOption (elapse 8000 (awokenCallback (onCommand command w))) = None /\
       timers (awokenCallback (awokenCallback (onCommand command w))) = [] /\
       visibleOption (awokenCallback (awokenCallback (onCommand command w)))
         = Some (commandPanel command) /\
       forall dt,
         visibleOption
           (elapse dt (awokenCallback (awokenCallback (onCommand command w))))
         = Some (commandPanel command)).
Proof.
  intros w. split; [|split].
  - intros Ha. unfold awokenCallback. now rewrite Ha.
  - intros Ha. unfold awokenCallback. rewrite Ha.
    destruct (clearPending_frame w) as (A & B & C & D & _).
    repeat split; try assumption.
    + congruence.
    + intros h Hh. unfold clearPending. rewrite Hh. simpl.
      apply filter_keepOthers_gone.
    + intros Hr. apply clearPending_timers. now apply reachable_timersOk.
  - intros command Hr Hen Hrec.
    pose proof (reachable_timersOk w Hr) as Hok.
    destruct (onCommand_fields command w Hok Hen Hrec)
      as (Hv & Ht & Href & Haw & Hwk & Hc & Hf & _).
    unfold commandDelay in *.
    set (w1 := onCommand command w) in *.
    assert (E1 : awokenCallback w1 = setAwakingRef false w1)
      by (unfold awokenCallback; now rewrite Haw).
    assert (E2 : awokenCallback (awokenCallback w1)
                 = clearPending (setAwakingRef false w1))
      by (rewrite E1; reflexivity).
    assert (Hok1 : timersOk (setAwakingRef false w1)).
    { apply (timersOk_ext w1); try reflexivity.
      apply (timersOk_onCommand command w Hok). }
    pose proof (clearPending_timers _ Hok1) as Hnone.
    destruct (clearPending_frame (setAwakingRef false w1)) as (_ & Hvis & _).
    rewrite E2, E1. repeat split.
    + exact Ht.
    + assert (Ht' : timers (setAwakingRef false w1)
                    = [mkTimer (nextTimer w) (clock w + 8000) DismissOverlay])
        by exact Ht.
      destruct (elapse_single_fields _ _ 8000 Ht') as [_ He].
      apply He. simpl. rewrite Hc. lia.
    + exact Hnone.
    + rewrite Hvis. exact Hv.
    + intros dt.
      destruct (elapse_idle_fields _ dt Hnone) as (Hs & _).
      rewrite Hs, Hvis. exact Hv.
Qed.

(** ** C5 *)

(** C5. A command that is neither an ambassador key nor "welcome" leaves the
    whole world as it was: panel, subject, timer table, [timeoutRef],
    [awakingRef] and the calls made to [wake]. *)
Theorem onCommand_unrecognized_ignored :
  forall (command : string) (w : World),
    isAmbassadorKey command = false ->
    command <> "welcome"%string ->
    onCommand command w = w.
Proof.
  intros command w Hk Hw. unfold onCommand.
  destruct (negb (disableChatPopup (settings w))); [|reflexivity].
  rewrite Hk. now rewrite (proj2 (String.eqb_neq _ _) Hw).
Qed.

(** ** C7 *)

(** C7. With [disableChatPopup] set, the command callback returns the world
    it was given, whatever the command. *)
Theorem onCommand_disabled_noop :
  forall (command : string) (w : World),
    disableChatPopup (settings w) = true ->
    onCommand command w = w.
Proof.
  intros command w Hd. unfold onCommand. now rewrite Hd.
Qed.

(** ** C6 *)

Lemma hasBackground_spec (e : Element) :
  hasBackground e = true <->
  backgroundImage e <> "none"%string \/
  backgroundColor e <> "rgba(0, 0, 0, 0)"%string.
Proof.
  unfold hasBackground. rewrite orb_true_iff, !negb_true_iff.
  now rewrite <- !String.eqb_neq.
Qed.

Lemma reachesBody_background (pre : list Element) (e : Element)
    (rest : list Element) :
  (forall x, In x pre -> isBody x = false) ->
  isBody e = false -> hasBackground e = true ->
  reachesBody (pre ++ e :: rest) = false.
Proof.
  intros Hpre Hb Hbg. induction pre as [|x pre IH]; simpl.
  - now rewrite Hb, Hbg.
  - rewrite (Hpre x (or_introl eq_refl)).
    destruct (hasBackground x); [reflexivity|].
    apply IH. intros y Hy. apply Hpre. now right.
Qed.

Lemma reachesBody_transparent (pre rest : list Element) :
  (forall x, In x pre -> isBody x = false /\ hasBackground x = false) ->
  reachesBody (pre ++ rest) = reachesBody rest.
Proof.
  intros Hpre. induction pre as [|x pre IH]; simpl; [reflexivity|].
  destruct (Hpre x (or_introl eq_refl)) as [Hb Hbg]. rewrite Hb, Hbg.
  apply IH. intros y Hy. apply Hpre. now right.
Qed.

Lemma specNonTransparent_hasBackground (e : Element) :
  specNonTransparent e = true -> hasBackground e = true.
Proof.
  unfold specNonTransparent, hasBackground.
  destruct (backgroundImage e =? "none")%string; simpl; [|reflexivity].
  destruct (String.eqb_spec (backgroundColor e) "rgba(0, 0, 0, 0)") as [E|E];
    [|reflexivity].
  rewrite E. vm_compute. exact (fun H => H).
Qed.

(** C6 (amended). When an element ahead of [document.body] in the list has
    a background as the code tests it (a background image other than
    'none', or a computed background colour other than the exact value
    'rgba(0, 0, 0, 0)'), the click leaves the world as it was; this covers
    every surface with a background image or a colour that is not fully
    transparent. When every element ahead of [document.body] has none, or
    the list has no body and no element with a background,
    [visibleOption] is cleared at once and nothing else changes: the
    timer table and [timeoutRef] are as before. *)
Theorem bodyClick_inside_ignored_outside_dismisses :
  forall (w : World),
    (forall e, hasBackground e = true <->
               backgroundImage e <> "none"%string \/
               backgroundColor e <> "rgba(0, 0, 0, 0)"%string) /\
    (forall pre e rest,
       (forall x, In x pre -> isBody x = false) ->
       isBody e = false -> hasBackground e = true ->
       bodyClick (pre ++ e :: rest) w = w) /\
    (forall pre body rest,
       (forall x, In x pre -> isBody x = false /\ hasBackground x = false) ->
       isBody body = true ->
       bodyClick (pre ++ body :: rest) w = setVisibleOption None w) /\
    (forall pre,
       (forall x, In x pre -> isBody x = false /\ hasBackground x = false) ->
       bodyClick pre w = setVisibleOption None w) /\
    visibleOption (setVisibleOption None w) = None /\
    timers (setVisibleOption None w) = timers w /\
    timeoutRef (setVisibleOption None w) = timeoutRef w /\
    awakingRef (setVisibleOption None w) = awakingRef w /\
    commandAmbassador (setVisibleOption None w) = commandAmbassador w /\
    fired (setVisibleOption None w) = fired w /\
    wakeCalls (setVisibleOption None w) = wakeCalls w /\
    (forall e, specNonTransparent e = true -> hasBackground e = true).
Proof.
  intros w. split; [exact hasBackground_spec|].
  split; [|split; [|split]].
  - intros pre e rest Hpre Hb Hbg. unfold bodyClick.
    now rewrite (reachesBody_background pre e rest Hpre Hb Hbg).
  - intros pre body rest Hpre Hb. unfold bodyClick.
    rewrite (reachesBody_transparent pre (body :: rest) Hpre). simpl.
    now rewrite Hb.
  - intros pre Hpre. unfold bodyClick.
    rewrite <- (app_nil_r pre).
    now rewrite (reachesBody_transparent pre [] Hpre).
  - repeat (split; [reflexivity|]). exact specNonTransparent_hasBackground.
Qed.

(** ** C8 *)

Lemma run_elapse_idle (dts : list N) (w : World) :
  timers w = [] ->
  exists t, run (map Elapse dts) w = setClock t w.
Proof.
  revert w. induction dts as [|dt dts IH]; intros w E; simpl.
  - exists (clock w). now destruct w.
  - rewrite (elapse_no_timers w dt E).
    destruct (IH (setClock (clock w + dt) w) E) as [t Ht].
    exists t. rewrite Ht. reflexivity.
Qed.

(** C8. The unmount cleanup of a reachable world leaves no timeout pending
    and touches nothing else; whatever time passes afterwards, only the
    clock moves: the panel, the subject, the refs and the log of timeouts
    that ran are frozen. In particular, unmounting right after a
    recognized command, while its dismiss is pending, keeps the panel of
    that command however long one waits. *)
Theorem unmountCleanup_freezes_state :
  forall (w : World),
    reachable w ->
    timers (unmountCleanup w) = [] /\
    visibleOption (unmountCleanup w) = visibleOption w /\
    (forall dts, exists t,
       run (map Elapse dts) (unmountCleanup w) = setClock t (unmountCleanup w)) /\
    (forall dts,
       visibleOption (run (map Elapse dts) (unmountCleanup w)) = visibleOption w /\
       commandAmbassador (run (map Elapse dts) (unmountCleanup w))
         = commandAmbassador w /\
       fired (run (map Elapse dts) (unmountCleanup w)) = fired w) /\
    (forall command,
       disableChatPopup (settings w) = false ->
       recognized command = true ->
       timers (onCommand command w)
         = [mkTimer (nextTimer w) (clock w + 8000) DismissOverlay] /\
       forall dt,
         visibleOption (elapse dt (unmountCleanup (onCommand command w)))
           = Some (commandPanel command) /\
         fired (elapse dt (unmountCleanup (onCommand command w))) = fired w).
Proof.
  intros w Hr. pose proof (reachable_timersOk w Hr) as Hok.
  unfold unmountCleanup.
  pose proof (clearPending_timers w Hok) as Hnone.
  destruct (clearPending_frame w) as (Hs & Hv & _ & _ & _ & _ & _ & Hf & _).
  split; [exact Hnone|]. split; [exact Hv|]. split; [|split].
  - intros dts. now apply run_elapse_idle.
  - intros dts. destruct (run_elapse_idle dts _ Hnone) as [t Ht].
    rewrite Ht. simpl. tauto.
  - intros command Hen Hrec.
    destruct (onCommand_fields command w Hok Hen Hrec)
      as (Hv1 & Ht1 & _ & _ & _ & _ & Hf1 & _).
    split; [exact Ht1|]. intros dt.
    pose proof (timersOk_onCommand command w Hok) as Hok1.
    pose proof (clearPending_timers _ Hok1) as Hnone1.
    destruct (clearPending_frame (onCommand command w))
      as (_ & Hv2 & _ & _ & _ & _ & _ & Hf2 & _).
    destruct (elapse_idle_fields _ dt Hnone1) as (Ha & _ & Hb).
    rewrite Ha, Hb, Hv2, Hf2, Hv1, Hf1. now split.
Qed.

(** ** C9 *)

(** C9. Clearing a handle twice is the same as clearing it once, and
    clearing a handle that is not in the timer table (its timeout ran, or
    was cleared) returns the world unchanged. In a reachable world with no
    pending timeout and [awakingRef] lowered, the awoken callback and the
    unmount cleanup change nothing; this is the case after the dismiss of
    a command has run, and after it has been cancelled, [timeoutRef] still
    holding the old handle. *)
Theorem clearTimeout_idempotent_noop :
  (forall h w, clearTimeout h (clearTimeout h w) = clearTimeout h w) /\
  (forall h w, ~ In h (map timerId (timers w)) -> clearTimeout h w = w) /\
  (forall w, timers w = [] -> awakingRef w = false ->
     awokenCallback w = w /\ unmountCleanup w = w) /\
  (forall command w,
     reachable w ->
     disableChatPopup (settings w) = false ->
     recognized command = true ->
     (* the dismiss has run *)
     fired (elapse 8000 (awokenCallback (onCommand command w)))
       = fired w ++ [(nextTimer w, clock w + 8000)] /\
     timeoutRef (elapse 8000 (awokenCallback (onCommand command w)))
       = Some (nextTimer w) /\
     awokenCallback (elapse 8000 (awokenCallback (onCommand command w)))
       = elapse 8000 (awokenCallback (onCommand command w)) /\
     (* the dismiss has been cancelled *)
     timeoutRef (awokenCallback (awokenCallback (onCommand command w)))
       = Some (nextTimer w) /\
     awokenCallback (awokenCallback (awokenCallback (onCommand command w)))
       = awokenCallback (awokenCallback (onCommand command w))).
Proof.
  split; [exact clearTimeout_idem|].
  split; [exact clearTimeout_absent|].
  assert (Hidle : forall w, timers w = [] -> awakingRef w = false ->
                    awokenCallback w = w /\ unmountCleanup w = w).
  { intros w E Ha. unfold awokenCallback, unmountCleanup. rewrite Ha.
    split; now apply clearPending_no_timers. }
  split; [exact Hidle|].
  intros command w Hr Hen Hrec.
  pose proof (reachable_timersOk w Hr) as Hok.
  destruct (onCommand_fields command w Hok Hen Hrec)
    as (Hv & Ht & Href & Haw & Hwk & Hc & Hf & _).
  unfold commandDelay in *.
  set (w1 := onCommand command w) in *.
  assert (E1 : awokenCallback w1 = setAwakingRef false w1)
    by (unfold awokenCallback; now rewrite Haw).
  rewrite E1.
  assert (Ht' : timers (setAwakingRef false w1)
                = [mkTimer (nextTimer w) (clock w + 8000) DismissOverlay])
    by exact Ht.
  assert (Hdue : deadline (mkTimer (nextTimer w) (clock w + 8000) DismissOverlay)
                 <= clock (setAwakingRef false w1) + 8000)
    by (simpl; rewrite Hc; lia).
  destruct (elapse_single_fields _ _ 8000 Ht') as [_ He].
  destruct (He Hdue) as (_ & Hnone & Hfired).
  destruct (elapse_frame (setAwakingRef false w1) 8000)
    as (_ & _ & Hr2 & Ha2 & _).
  assert (Hok1 : timersOk (setAwakingRef false w1)).
  { apply (timersOk_ext w1); try reflexivity.
    apply (timersOk_onCommand command w Hok). }
  pose proof (clearPending_timers _ Hok1) as Hnone2.
  destruct (clearPending_frame (setAwakingRef false w1))
    as (_ & _ & Hr3 & Ha3 & _).
  assert (E2 : awokenCallback (setAwakingRef false w1)
               = clearPending (setAwakingRef false w1)) by reflexivity.
  repeat split.
  - rewrite Hfired. simpl. now rewrite Hf.
  - rewrite Hr2. exact Href.
  - apply Hidle; [exact Hnone|]. now rewrite Ha2.
  - rewrite E2, Hr3. exact Href.
  - rewrite E2. apply Hidle; [exact Hnone2|]. now rewrite Ha3.
Qed.

(** ** C10 *)

Lemma showAndWake_subject (command : string) (w : World) :
  commandAmbassador (showAndWake command w) = commandAmbassador w /\
  settings (showAndWake command w) = settings w.
Proof. rewrite showAndWake_unfold. simpl. tauto. Qed.

Lemma onCommand_subject (command : string) (w : World) :
  commandAmbassador (onCommand command w) =
    (if negb (disableChatPopup (settings w)) && isAmbassadorKey command
     then Some command else commandAmbassador w) /\
  settings (onCommand command w) = settings w.
Proof.
  unfold onCommand.
  destruct (negb (disableChatPopup (settings w))); simpl; [|tauto].
  destruct (isAmbassadorKey command).
  - destruct (showAndWake_subject command (setCommandAmbassador command w))
      as [A B]. now rewrite A, B.
  - destruct (negb (command =? "welcome")%string); [tauto|].
    apply showAndWake_subject.
Qed.

Lemma awokenCallback_subject (w : World) :
  commandAmbassador (awokenCallback w) = commandAmbassador w /\
  settings (awokenCallback w) = settings w.
Proof.
  unfold awokenCallback. destruct (awakingRef w); [simpl; tauto|].
  destruct (clearPending_frame w) as (A & _ & _ & _ & B & _). now split.
Qed.

Lemma bodyClick_cases (elements : list Element) (w : World) :
  bodyClick elements w = w \/ bodyClick elements w = setVisibleOption None w.
Proof. unfold bodyClick. destruct (reachesBody elements); tauto. Qed.

Lemma run_subject (evs : list Event) (w : World) :
  commandAmbassador (run evs w)
  = lastSubject evs (settings w) (commandAmbassador w).
Proof.
  revert w. induction evs as [|ev evs IH]; intros w; simpl; [reflexivity|].
  unfold run in IH. rewrite IH.
  destruct ev as [command| |elements|key|s|dt]; cbn [step].
  - destruct (onCommand_subject command w) as [A B]. rewrite A, B.
    now destruct (negb (disableChatPopup (settings w)) && isAmbassadorKey command).
  - destruct (awokenCallback_subject w) as [A B]. now rewrite A, B.
  - destruct (bodyClick_cases elements w) as [E|E]; now rewrite E.
  - reflexivity.
  - reflexivity.
  - destruct (elapse_frame w dt) as (A & _ & _ & _ & B & _). now rewrite A, B.
Qed.

Lemma lastSubject_no_command (evs : list Event) (s : Settings)
    (cur : option AmbassadorKey) :
  forallb (fun ev => negb (isChatCommand ev)) evs = true ->
  lastSubject evs s cur = cur.
Proof.
  revert s. induction evs as [|ev evs IH]; intros s H; simpl in *; [reflexivity|].
  apply andb_true_iff in H. destruct H as [H1 H2].
  destruct ev; simpl in H1; try discriminate; now apply IH.
Qed.

(** C10. A timeout that runs clears [visibleOption] and leaves the subject,
    the refs and the settings alone; so does any passage of time; a body
    click either changes nothing or clears [visibleOption] only. Over any
    trace, [commandAmbassador] is the last ambassador key delivered while
    the popup was enabled (or what it was before the trace, when there is
    none), so a trace without chat commands keeps it, and opening the
    Ambassadors panel from the buttons afterwards finds it still there. *)
Theorem dismissal_keeps_commandAmbassador :
  (forall w tm,
     commandAmbassador (fireTimer w tm) = commandAmbassador w /\
     visibleOption (fireTimer w tm) = None /\
     timeoutRef (fireTimer w tm) = timeoutRef w /\
     awakingRef (fireTimer w tm) = awakingRef w /\
     settings (fireTimer w tm) = settings w) /\
  (forall w dt, commandAmbassador (elapse dt w) = commandAmbassador w) /\
  (forall w elements,
     (bodyClick elements w = w \/
      bodyClick elements w = setVisibleOption None w) /\
     commandAmbassador (bodyClick elements w) = commandAmbassador w) /\
  (forall evs w,
     commandAmbassador (run evs w)
     = lastSubject evs (settings w) (commandAmbassador w)) /\
  (forall evs w,
     forallb (fun ev => negb (isChatCommand ev)) evs = true ->
     commandAmbassador (run evs w) = commandAmbassador w /\
     commandAmbassador (run (evs ++ [ButtonClick (Some Key_ambassadors)]) w)
       = commandAmbassador w /\
     visibleOption (run (evs ++ [ButtonClick (Some Key_ambassadors)]) w)
       = Some Key_ambassadors).
Proof.
  split; [|split; [|split; [|split]]].
  - intros w tm. destruct (fireTimer_frame w tm) as (A & B & C & D & E & _).
    tauto.
  - intros w dt. apply elapse_frame.
  - intros w elements. split; [apply bodyClick_cases|].
    destruct (bodyClick_cases elements w) as [E|E]; now rewrite E.
  - exact run_subject.
  - intros evs w Hno.
    assert (A : commandAmbassador (run evs w) = commandAmbassador w)
      by (rewrite run_subject; now apply lastSubject_no_command).
    split; [exact A|].
    unfold run in *. rewrite fold_left_app. simpl. now split.
Qed.

(** ** C4 *)

Lemma filter_ids_subset (f : Timer -> bool) (h : TimerId) (ts : list Timer) :
  ~ In h (map timerId ts) -> ~ In h (map timerId (filter f ts)).
Proof.
  intros Hn Hin. apply Hn. apply in_map_iff in Hin.
  destruct Hin as [tm [E Hin]]. apply filter_In in Hin.
  apply in_map_iff. exists tm. tauto.
Qed.

Lemma cancelled_ext (h : TimerId) (w w' : World) :
  timers w' = timers w -> nextTimer w' = nextTimer w -> fired w' = fired w ->
  cancelled h w -> cancelled h w'.
Proof. unfold cancelled. intros -> -> ->. tauto. Qed.

Lemma cancelled_clearPending (h : TimerId) (w : World) :
  cancelled h w -> cancelled h (clearPending w).
Proof.
  intros (A & B & C). unfold clearPending.
  destruct (timeoutRef w) as [h'|]; [|now repeat split].
  repeat split; simpl; try assumption. now apply filter_ids_subset.
Qed.

Lemma cancelled_showAndWake (h : TimerId) (command : string) (w : World) :
  cancelled h w -> cancelled h (showAndWake command w).
Proof.
  intros Hc. destruct (cancelled_clearPending h w Hc) as (_ & B' & _).
  destruct Hc as (A & B & C).
  rewrite showAndWake_unfold. unfold cancelled. simpl.
  repeat split; [lia| |assumption].
  rewrite map_app. intros Hin. apply in_app_or in Hin.
  destruct Hin as [Hin|[Hin|[]]]; [now apply B'|]. simpl in Hin. lia.
Qed.

Lemma fireTimer_table (w : World) (tm : Timer) :
  timers (fireTimer w tm) = filter (keepOthers (timerId tm)) (timers w) /\
  fired (fireTimer w tm) = fired w ++ [(timerId tm, deadline tm)] /\
  nextTimer (fireTimer w tm) = nextTimer w.
Proof. unfold fireTimer. destruct (callback tm). simpl. tauto. Qed.

Lemma cancelled_fold_fireTimer (h : TimerId) (due : list Timer) (w : World) :
  (forall tm, In tm due -> timerId tm <> h) ->
  cancelled h w -> cancelled h (fold_left fireTimer due w).
Proof.
  revert w. induction due as [|tm due IH]; intros w Hd Hc; simpl; [exact Hc|].
  apply IH; [intros x Hx; apply Hd; now right|].
  destruct (fireTimer_table w tm) as (A & B & C).
  destruct Hc as (H1 & H2 & H3). unfold cancelled. rewrite A, B, C.
  repeat split; [assumption|now apply filter_ids_subset|].
  rewrite map_app. intros Hin. apply in_app_or in Hin.
  destruct Hin as [Hin|[Hin|[]]]; [now apply H3|].
  simpl in Hin. apply (Hd tm); [now left|assumption].
Qed.

Lemma cancelled_step (h : TimerId) (w : World) (ev : Event) :
  cancelled h w -> cancelled h (step w ev).
Proof.
  intros Hc. destruct ev as [command| |elements|key|s|dt]; cbn [step].
  - destruct (onCommand_cases command w) as [E|[E|E]]; rewrite E.
    + exact Hc.
    + now apply cancelled_showAndWake.
    + apply cancelled_showAndWake.
      now apply (cancelled_ext h w (setCommandAmbassador command w)).
  - unfold awokenCallback. destruct (awakingRef w).
    + now apply (cancelled_ext h w).
    + now apply cancelled_clearPending.
  - destruct (bodyClick_cases elements w) as [E|E]; rewrite E; [exact Hc|].
    now apply (cancelled_ext h w).
  - now apply (cancelled_ext h w).
  - now apply (cancelled_ext h w).
  - unfold elapse.
    apply (cancelled_ext h (fold_left fireTimer
             (filter (isDue (clock w + dt)) (timers w)) w)); try reflexivity.
    apply cancelled_fold_fireTimer; [|exact Hc].
    intros tm Hin E. apply filter_In in Hin. destruct Hc as (_ & H2 & _).
    apply H2. apply in_map_iff. exists tm. tauto.
Qed.

Lemma cancelled_run (h : TimerId) (evs : list Event) (w : World) :
  cancelled h w -> cancelled h (run evs w).
Proof.
  revert w. induction evs as [|ev evs IH]; intros w Hc; simpl; [exact Hc|].
  apply IH. now apply cancelled_step.
Qed.

(** Two recognized commands less than 8000 units apart. *)
Lemma twoCommands_fields (c1 c2 : string) (gap : N) (w : World) :
  timersOk w ->
  disableChatPopup (settings w) = false ->
  recognized c1 = true -> recognized c2 = true ->
  gap < 8000 ->
  visibleOption (twoCommands c1 gap c2 w) = Some (commandPanel c2) /\
  timers (twoCommands c1 gap c2 w) =
    [mkTimer (N.succ (nextTimer w)) (clock w + gap + 8000) DismissOverlay] /\
  clock (twoCommands c1 gap c2 w) = clock w + gap /\
  fired (twoCommands c1 gap c2 w) = fired w /\
  nextTimer (twoCommands c1 gap c2 w) = N.succ (N.succ (nextTimer w)).
Proof.
  intros Hok Hen H1 H2 Hgap. unfold twoCommands.
  destruct (onCommand_fields c1 w Hok Hen H1)
    as (_ & Ht & _ & _ & _ & Hc & Hf & Hn & Hs & _).
  unfold commandDelay in *.
  pose proof (timersOk_onCommand c1 w Hok) as Hok1.
  set (w1 := onCommand c1 w) in *.
  assert (Hearly : clock w1 + gap
                   < deadline (mkTimer (nextTimer w) (clock w + 8000) DismissOverlay))
    by (simpl; rewrite Hc; lia).
  pose proof (timersOk_elapse gap w1 Hok1) as Hok2.
  rewrite (elapse_early w1 gap _ Ht Hearly) in *.
  set (w2 := setClock (clock w1 + gap) w1) in *.
  assert (Hen2 : disableChatPopup (settings w2) = false) by exact (eq_trans (f_equal disableChatPopup Hs) Hen).
  destruct (onCommand_fields c2 w2 Hok2 Hen2 H2)
    as (Hv3 & Ht3 & _ & _ & _ & Hc3 & Hf3 & Hn3 & _).
  unfold commandDelay in *.
  change (nextTimer w2) with (nextTimer w1) in *.
  change (clock w2) with (clock w1 + gap) in *.
  change (fired w2) with (fired w1) in *.
  rewrite Hv3, Ht3, Hc3, Hf3, Hn3, Hn, Hc, Hf. tauto.
Qed.

(** C4. In every reachable world at most one timeout is pending, and it is
    the one whose handle [timeoutRef] holds; a recognized command leaves
    none of the earlier handles pending. For two recognized commands 1000
    units apart, the only pending timeout after the second is the second
    one's, due 8000 units after it: until then the panel stays and no
    timeout runs (so none runs 8000 units after the first command), at
    8000 units the second one's timeout runs and clears the panel, and
    the first one's handle never appears among the timeouts that ran,
    whatever events follow. *)
Theorem single_pending_timer_latest_command_wins :
  (forall w, reachable w ->
     (length (timers w) <= 1)%nat /\
     (forall tm, In tm (timers w) -> timeoutRef w = Some (timerId tm))) /\
  (forall command w tm,
     reachable w ->
     disableChatPopup (settings w) = false ->
     recognized command = true ->
     In tm (timers w) ->
     ~ In (timerId tm) (map timerId (timers (onCommand command w)))) /\
  (forall c1 c2 w,
     reachable w ->
     disableChatPopup (settings w) = false ->
     recognized c1 = true -> recognized c2 = true ->
     timers (onCommand c1 w)
       = [mkTimer (nextTimer w) (clock w + 8000) DismissOverlay] /\
     timers (twoCommands c1 1000 c2 w)
       = [mkTimer (N.succ (nextTimer w)) (clock w + 1000 + 8000) DismissOverlay] /\
     (forall dt, dt < 8000 ->
        visibleOption (elapse dt (twoCommands c1 1000 c2 w))
          = Some (commandPanel c2) /\
        fired (elapse dt (twoCommands c1 1000 c2 w)) = fired w) /\
     visibleOption (elapse 8000 (twoCommands c1 1000 c2 w)) = None /\
     fired (elapse 8000 (twoCommands c1 1000 c2 w))
       = fired w ++ [(N.succ (nextTimer w), clock w + 1000 + 8000)] /\
     (forall evs,
        ~ In (nextTimer w) (map fst (fired (run evs (twoCommands c1 1000 c2 w)))))).
Proof.
  split; [|split].
  - intros w Hr. destruct (reachable_timersOk w Hr) as [[E|[tm [E R]]] _ _ _].
    + rewrite E. simpl. split; [lia|tauto].
    + rewrite E. simpl. split; [lia|]. intros x [Hx|[]]. now subst x.
  - intros command w tm Hr Hen Hrec Hin.
    pose proof (reachable_timersOk w Hr) as Hok.
    destruct (onCommand_fields command w Hok Hen Hrec) as (_ & Ht & _).
    rewrite Ht. simpl. intros [E|[]].
    apply (ok_pending_fresh w Hok) in Hin. lia.
  - intros c1 c2 w Hr Hen H1 H2.
    pose proof (reachable_timersOk w Hr) as Hok.
    destruct (onCommand_fields c1 w Hok Hen H1) as (_ & Ht1 & _).
    assert (Hgap : 1000 < 8000) by lia.
    destruct (twoCommands_fields c1 c2 1000 w Hok Hen H1 H2 Hgap)
      as (Hv & Ht & Hc & Hf & Hn).
    unfold commandDelay in *.
    split; [exact Ht1|]. split; [exact Ht|].
    split; [|split; [|split]].
    + intros dt Hdt.
      destruct (elapse_single_fields _ _ dt Ht) as [He _].
      rewrite <- Hv, <- Hf.
      assert (Hlt : clock (twoCommands c1 1000 c2 w) + dt
                    < deadline (mkTimer (N.succ (nextTimer w))
                                  (clock w + 1000 + 8000) DismissOverlay))
        by (simpl; rewrite Hc; lia).
      destruct (He Hlt) as (A & _ & B). now split.
    + destruct (elapse_single_fields _ _ 8000 Ht) as [_ He].
      apply He. simpl. rewrite Hc. lia.
    + destruct (elapse_single_fields _ _ 8000 Ht) as [_ He].
      rewrite <- Hf. apply He. simpl. rewrite Hc. lia.
    + intros evs.
      assert (Hcan : cancelled (nextTimer w) (twoCommands c1 1000 c2 w)).
      { unfold cancelled. rewrite Ht, Hf, Hn. simpl. repeat split.
        - lia.
        - intros [E|[]]. lia.
        - intros Hin. apply in_map_iff in Hin. destruct Hin as [p [E Hin]].
          apply (ok_fired_fresh w Hok) in Hin. lia. }
      apply (cancelled_run _ evs _ Hcan).
Qed.

(** ** Logs, handles and the subject in reachable worlds *)

Lemma NoDup_snoc {A : Type} (l : list A) (x : A) :
  NoDup l -> ~ In x l -> NoDup (l ++ [x]).
Proof.
  induction l as [|a l IH]; simpl; intros Hnd Hx.
  - constructor; [tauto|constructor].
  - inversion Hnd as [|? ? Ha Hl]; subst. constructor.
    + intros Hin. apply in_app_or in Hin. destruct Hin as [Hin|[E|[]]].
      * contradiction.
      * apply Hx. now left.
    + apply IH; [assumption|]. intros Hin. apply Hx. now right.
Qed.

Lemma logsOk_ext (w w' : World) :
  wakeCalls w' = wakeCalls w -> nextTimer w' = nextTimer w ->
  timeoutRef w' = timeoutRef w -> timers w' = timers w ->
  clock w' = clock w -> fired w' = fired w ->
  commandAmbassador w' = commandAmbassador w ->
  logsOk w -> logsOk w'.
Proof.
  intros E1 E2 E3 E4 E5 E6 E7 [H1 H2 H3 H4 H5 H6 H7 H8 H9].
  constructor; rewrite ?E1, ?E2, ?E3, ?E4, ?E5, ?E6, ?E7; assumption.
Qed.

Lemma logsOk_initial (s : Settings) : logsOk (initial s).
Proof.
  constructor; simpl; try tauto; try reflexivity; try discriminate;
    try (now constructor); lia.
Qed.

Lemma logsOk_showAndWake (command : string) (w : World) :
  timersOk w -> logsOk w -> logsOk (showAndWake command w).
Proof.
  intros Hok [H1 H2 H3 H4 H5 H6 H7 H8 H9].
  rewrite (showAndWake_eq command w Hok). constructor; simpl.
  - apply Forall_app. split; [assumption|]. now constructor.
  - rewrite length_app. simpl. lia.
  - split; [reflexivity|lia].
  - intros tm [E|[]]. subst tm. simpl. lia.
  - assumption.
  - intros tm [E|[]]. subst tm. simpl. intros Hin.
    apply in_map_iff in Hin. destruct Hin as [p [E Hin]].
    apply (ok_fired_fresh w Hok) in Hin. lia.
  - assumption.
  - rewrite length_app. simpl. lia.
  - assumption.
Qed.

Lemma logsOk_clearPending (w : World) :
  timersOk w -> logsOk w -> logsOk (clearPending w).
Proof.
  intros Hok [H1 H2 H3 H4 H5 H6 H7 H8 H9].
  pose proof (clearPending_timers w Hok) as Et.
  destruct (clearPending_frame w) as (Es & _ & Er & _ & _ & Ec & En & Ef & Ew).
  constructor; rewrite ?Et, ?Es, ?Er, ?Ec, ?En, ?Ef, ?Ew; simpl;
    try assumption; try tauto.
  lia.
Qed.

Lemma logsOk_elapse (dt : N) (w : World) :
  timersOk w -> logsOk w -> logsOk (elapse dt w).
Proof.
  intros Hok [H1 H2 H3 H4 H5 H6 H7 H8 H9].
  destruct (ok_single w Hok) as [E|[tm [E R]]].
  - rewrite (elapse_no_timers w dt E).
    constructor; simpl; rewrite ?E in *; simpl; try assumption; try tauto.
    intros p Hp. specialize (H7 p Hp). lia.
  - assert (Hin : In tm (timers w)) by (rewrite E; now left).
    destruct (N.lt_ge_cases (clock w + dt) (deadline tm)) as [Hlt|Hge].
    + rewrite (elapse_early w dt tm E Hlt).
      constructor; simpl; try assumption.
      * intros x Hx. specialize (H4 x Hx). lia.
      * intros p Hp. specialize (H7 p Hp). lia.
    + rewrite (elapse_due w dt tm E Hge), (fireTimer_single w tm E).
      constructor; simpl; try assumption; try tauto.
      * rewrite map_app. simpl. apply NoDup_snoc; [assumption|].
        now apply H6.
      * intros p Hp. apply in_app_or in Hp. destruct Hp as [Hp|[Hp|[]]].
        -- specialize (H7 p Hp). lia.
        -- subst p. simpl. lia.
      * rewrite length_app. rewrite E in H8. simpl in *. lia.
Qed.

Lemma logsOk_step (w : World) (ev : Event) :
  timersOk w -> logsOk w -> logsOk (step w ev).
Proof.
  intros Hok Hlg. destruct ev as [command| |elements|key|s|dt]; cbn [step].
  - unfold onCommand.
    destruct (negb (disableChatPopup (settings w))); [|exact Hlg].
    destruct (isAmbassadorKey command) eqn:Hk.
    + apply logsOk_showAndWake; [now apply (timersOk_ext w)|].
      destruct Hlg as [H1 H2 H3 H4 H5 H6 H7 H8 H9].
      constructor; simpl; try assumption.
      intros k Ek. now inversion Ek; subst.
    + destruct (negb (command =? "welcome")%string); [exact Hlg|].
      now apply logsOk_showAndWake.
  - unfold awokenCallback. destruct (awakingRef w).
    + now apply (logsOk_ext w).
    + now apply logsOk_clearPending.
  - destruct (bodyClick_cases elements w) as [E|E]; rewrite E; [exact Hlg|].
    now apply (logsOk_ext w).
  - now apply (logsOk_ext w).
  - now apply (logsOk_ext w).
  - now apply logsOk_elapse.
Qed.

Lemma reachable_logsOk (w : World) : reachable w -> logsOk w.
Proof.
  induction 1 as [s|w ev Hr IH].
  - apply logsOk_initial.
  - apply logsOk_step; [now apply reachable_timersOk|exact IH].
Qed.

(** ** Properties of reachable worlds *)

(** X1. The subject recorded in [commandAmbassador] is always a key the
    catalogue knows. *)
Theorem commandAmbassador_is_ambassador_key :
  forall (w : World) (k : AmbassadorKey),
    reachable w ->
    commandAmbassador w = Some k ->
    isAmbassadorKey k = true.
Proof.
  intros w k Hr. apply (lg_subject w (reachable_logsOk w Hr)).
Qed.

(** X2. [wake] is called once for each timeout that is scheduled and only
    ever with 8000; [timeoutRef] is unset exactly as long as [wake] has
    not been called, and otherwise holds the handle handed out last; the
    timeouts that ran or are pending never outnumber the calls. *)
Theorem wake_once_per_timeout :
  forall (w : World),
    reachable w ->
    Forall (fun t => t = 8000) (wakeCalls w) /\
    N.of_nat (length (wakeCalls w)) + 1 = nextTimer w /\
    (timeoutRef w = None <-> wakeCalls w = []) /\
    (forall h, timeoutRef w = Some h -> N.succ h = nextTimer w) /\
    (length (fired w) + length (timers w) <= length (wakeCalls w))%nat.
Proof.
  intros w Hr. destruct (reachable_logsOk w Hr) as [H1 H2 H3 H4 H5 H6 H7 H8 H9].
  split; [exact H1|]. split; [exact H2|]. split; [|split; [|exact H8]].
  - destruct (timeoutRef w) as [h|]; split; intros E; try discriminate;
      try reflexivity.
    + rewrite E in H2. simpl in H2. lia.
    + destruct (wakeCalls w); [reflexivity|]. simpl in H2. lia.
  - intros h E. rewrite E in H3. tauto.
Qed.

(** X3. No timeout runs twice: the handles in the log of timeouts that ran
    are pairwise distinct, each was handed out before and ran at a time
    that is not in the future, and a pending timeout has not run. *)
Theorem timeout_runs_at_most_once :
  forall (w : World),
    reachable w ->
    NoDup (map fst (fired w)) /\
    (forall p, In p (fired w) -> snd p <= clock w /\ fst p < nextTimer w) /\
    (forall tm, In tm (timers w) -> ~ In (timerId tm) (map fst (fired w))).
Proof.
  intros w Hr. pose proof (reachable_timersOk w Hr) as Hok.
  destruct (reachable_logsOk w Hr) as [H1 H2 H3 H4 H5 H6 H7 H8 H9].
  split; [exact H5|]. split; [|exact H6].
  intros p Hp. split; [now apply H7|now apply (ok_fired_fresh w Hok)].
Qed.

(** X4. A pending dismiss is due later than now and at most 8000 units
    from now; once 8000 units or more pass with no other event it has run,
    no panel is visible and no timeout is pending. *)
Theorem pending_dismiss_closes_within_delay :
  forall (w : World) (tm : Timer),
    reachable w ->
    In tm (timers w) ->
    clock w < deadline tm /\
    deadline tm <= clock w + 8000 /\
    forall dt, 8000 <= dt ->
      visibleOption (elapse dt w) = None /\
      timers (elapse dt w) = [] /\
      fired (elapse dt w) = fired w ++ [(timerId tm, deadline tm)].
Proof.
  intros w tm Hr Hin. pose proof (reachable_timersOk w Hr) as Hok.
  pose proof (lg_deadline w (reachable_logsOk w Hr) tm Hin) as Hd.
  unfold commandDelay in Hd.
  split; [now apply (ok_not_due w Hok)|]. split; [exact Hd|].
  intros dt Hdt.
  destruct (ok_single w Hok) as [E|[tm' [E _]]].
  - rewrite E in Hin. destruct Hin.
  - rewrite E in Hin. destruct Hin as [Hin|[]]. subst tm'.
    destruct (elapse_single_fields w tm dt E) as [_ He]. apply He. lia.
Qed.

(** ** Clicks and re-renders *)



Lemma step_settings_panel (ev : Event) (w : World) :
  opensSettings ev = false ->
  visibleOption (step w ev) = Some Key_settings ->
  visibleOption w = Some Key_settings.
Proof.
  destruct ev as [command| |elements|key|s|dt]; cbn [step]; intros Ho Hv.
  - destruct (onCommand_cases command w) as [E|[E|E]]; rewrite E in Hv;
      [exact Hv| |]; rewrite showAndWake_unfold in Hv; simpl in Hv;
      unfold commandPanel in Hv;
      destruct (command =? "welcome")%string; discriminate.
  - unfold awokenCallback in Hv. destruct (awakingRef w); [exact Hv|].
    destruct (clearPending_frame w) as (_ & B & _). now rewrite B in Hv.
  - destruct (bodyClick_cases elements w) as [E|E]; rewrite E in Hv;
      [exact Hv|discriminate].
  - simpl in Hv. rewrite Hv in Ho. discriminate.
  - exact Hv.
  - destruct (elapse_frame w dt) as (_ & [B|B] & _); rewrite B in Hv;
      [exact Hv|discriminate].
Qed.

(** X6. The Settings panel is opened by its button only: over a trace
    without a click on that button, a world that does not show Settings
    never comes to show it, whatever commands, interactions, clicks and
    timeouts occur. *)
Theorem settings_panel_only_from_buttons :
  forall (evs : list Event) (w : World),
    forallb (fun ev => negb (opensSettings ev)) evs = true ->
    visibleOption w <> Some Key_settings ->
    visibleOption (run evs w) <> Some Key_settings.
Proof.
  induction evs as [|ev evs IH]; intros w H Hv; simpl in *; [exact Hv|].
  apply andb_true_iff in H. destruct H as [H1 H2].
  apply (IH (step w ev) H2). intros Hs. apply Hv.
  apply (step_settings_panel ev w); [|exact Hs].
  now apply negb_true_iff.
Qed.

Lemma step_disabled (ev : Event) (w : World) :
  disableChatPopup (settings w) = true ->
  keepsDisabled ev = true ->
  disableChatPopup (settings (step w ev)) = true /\
  wakeCalls (step w ev) = wakeCalls w /\
  nextTimer (step w ev) = nextTimer w /\
  commandAmbassador (step w ev) = commandAmbassador w /\
  (awakingRef (step w ev) = true -> awakingRef w = true).
Proof.
  intros Hd Hk. destruct ev as [command| |elements|key|s|dt]; cbn [step].
  - unfold onCommand. rewrite Hd. simpl. tauto.
  - unfold awokenCallback. destruct (awakingRef w) eqn:Ha.
    + simpl. repeat split; try assumption; try reflexivity.
    + destruct (clearPending_frame w) as (A & _ & _ & B & C & _ & D & _ & E).
      rewrite A, B, C, D, E, Ha. tauto.
  - destruct (bodyClick_cases elements w) as [E|E]; rewrite E; simpl; tauto.
  - simpl. tauto.
  - simpl in *. tauto.
  - destruct (elapse_frame w dt) as (A & _ & _ & B & C & D & E).
    rewrite A, B, C, D, E. tauto.
Qed.

(** X7. As long as the chat popup stays disabled, no event calls [wake],
    schedules a timeout, records a subject or raises [awakingRef]. *)
Theorem disabled_popup_never_wakes :
  forall (evs : list Event) (w : World),
    disableChatPopup (settings w) = true ->
    forallb keepsDisabled evs = true ->
    wakeCalls (run evs w) = wakeCalls w /\
    nextTimer (run evs w) = nextTimer w /\
    commandAmbassador (run evs w) = commandAmbassador w /\
    (awakingRef (run evs w) = true -> awakingRef w = true).
Proof.
  induction evs as [|ev evs IH]; intros w Hd H; simpl in *; [tauto|].
  apply andb_true_iff in H. destruct H as [H1 H2].
  destruct (step_disabled ev w Hd H1) as (Hd' & A & B & C & D).
  destruct (IH (step w ev) Hd' H2) as (A' & B' & C' & D').
  unfold run in *. rewrite A', B', C', A, B, C. tauto.
Qed.

(** ** Repeated interactions, repeated clicks, split waits *)

Lemma clearPending_idem (w : World) :
  clearPending (clearPending w) = clearPending w.
Proof.
  unfold clearPending at 1.
  destruct (clearPending_frame w) as (_ & _ & R & _). rewrite R.
  unfold clearPending. destruct (timeoutRef w) as [h|]; [|reflexivity].
  apply clearTimeout_idem.
Qed.

(** X8. The awoken callback always leaves [awakingRef] lowered, and from
    the second call on it changes nothing: a third call returns the world
    of the second. The unmount cleanup run twice is the cleanup run once. *)
Theorem awokenCallback_settles_after_two :
  forall (w : World),
    awakingRef (awokenCallback w) = false /\
    awokenCallback (awokenCallback (awokenCallback w))
      = awokenCallback (awokenCallback w) /\
    unmountCleanup (unmountCleanup w) = unmountCleanup w.
Proof.
  intros w.
  assert (Hlow : forall u, awakingRef u = false ->
                   awokenCallback u = clearPending u)
    by (intros u Hu; unfold awokenCallback; now rewrite Hu).
  assert (Hflag : forall u, awakingRef u = false ->
                    awakingRef (clearPending u) = false).
  { intros u Hu. destruct (clearPending_frame u) as (_ & _ & _ & A & _).
    now rewrite A. }
  assert (Hsettled : forall u, awakingRef u = false ->
            awokenCallback (awokenCallback u) = awokenCallback u).
  { intros u Hu. rewrite (Hlow u Hu), (Hlow _ (Hflag u Hu)).
    apply clearPending_idem. }
  assert (Hfirst : awakingRef (awokenCallback w) = false).
  { unfold awokenCallback. destruct (awakingRef w) eqn:Ha; [reflexivity|].
    now apply Hflag. }
  split; [exact Hfirst|]. split.
  - rewrite (Hsettled _ Hfirst). reflexivity.
  - apply clearPending_idem.
Qed.

Lemma reachesBody_beforeBody (elements : list Element) :
  reachesBody (beforeBody elements) = reachesBody elements.
Proof.
  induction elements as [|e rest IH]; simpl; [reflexivity|].
  destruct (isBody e) eqn:Hb; simpl; [reflexivity|]. rewrite Hb.
  destruct (hasBackground e); [reflexivity|exact IH].
Qed.

Lemma reachesBody_forallb (elements : list Element) :
  reachesBody elements
  = forallb (fun e => negb (hasBackground e)) (beforeBody elements).
Proof.
  induction elements as [|e rest IH]; simpl; [reflexivity|].
  destruct (isBody e); simpl; [reflexivity|].
  destruct (hasBackground e); simpl; [reflexivity|exact IH].
Qed.

(** X9. A body click dismisses exactly when none of the elements ahead of
    the first [document.body] has a background; the elements from the body
    on play no part, and a second click on the same elements changes
    nothing more. *)
Theorem bodyClick_decided_before_body :
  forall (elements : list Element) (w : World),
    bodyClick elements w
      = (if forallb (fun e => negb (hasBackground e)) (beforeBody elements)
         then setVisibleOption None w else w) /\
    bodyClick elements w = bodyClick (beforeBody elements) w /\
    bodyClick elements (bodyClick elements w) = bodyClick elements w.
Proof.
  intros elements w. unfold bodyClick.
  rewrite (reachesBody_beforeBody elements), (reachesBody_forallb elements).
  repeat split.
  destruct (forallb _ _); reflexivity.
Qed.

Lemma setClock_setClock (t t' : N) (w : World) :
  setClock t' (setClock t w) = setClock t' w.
Proof. reflexivity. Qed.

(** X10. Waiting in two parts is waiting once: in a reachable world,
    letting [a] and then [b] units pass gives the world that letting
    [a + b] units pass gives, so observing the overlay part-way does not
    change when its dismiss runs. *)
Theorem elapse_splits :
  forall (a b : N) (w : World),
    reachable w ->
    elapse b (elapse a w) = elapse (a + b) w.
Proof.
  intros a b w Hr. pose proof (reachable_timersOk w Hr) as Hok.
  destruct (ok_single w Hok) as [E|[tm [E _]]].
  - rewrite (elapse_no_timers w a E), (elapse_no_timers w (a + b) E).
    rewrite elapse_no_timers by exact E.
    simpl. rewrite setClock_setClock. now rewrite N.add_assoc.
  - destruct (N.lt_ge_cases (clock w + a) (deadline tm)) as [Ha|Ha].
    + rewrite (elapse_early w a tm E Ha).
      destruct (N.lt_ge_cases (clock w + (a + b)) (deadline tm)) as [Hb|Hb].
      * rewrite (elapse_early w (a + b) tm E Hb).
        rewrite (elapse_early _ b tm) by (simpl; try exact E; lia).
        simpl. rewrite setClock_setClock. now rewrite N.add_assoc.
      * rewrite (elapse_due w (a + b) tm E Hb).
        rewrite (elapse_due _ b tm) by (simpl; try exact E; lia).
        rewrite (fireTimer_single w tm E).
        rewrite (fireTimer_single (setClock (clock w + a) w) tm E).
        unfold setClock. simpl. now rewrite N.add_assoc.
    + rewrite (elapse_due w a tm E Ha).
      rewrite (elapse_due w (a + b) tm E) by lia.
      rewrite (fireTimer_single w tm E).
      rewrite elapse_no_timers by reflexivity.
      unfold setClock. simpl. now rewrite N.add_assoc.
Qed.

(** ** Rendering *)

(** X11. All three options are rendered, in the order of
    [overlayOptions], and the one that is not hidden is the one named by
    [visibleOption]: none when it is unset, never more than one. *)
Theorem renderOptions_shows_visible_only :
  forall (w : World),
    map fst (renderOptions w) = [Key_welcome; Key_ambassadors; Key_settings] /\
    (forall key, In (key, false) (renderOptions w) <-> visibleOption w = Some key) /\
    map fst (filter (fun p => negb (snd p)) (renderOptions w))
      = match visibleOption w with Some key => [key] | None => [] end.
Proof.
  intros w. unfold renderOptions. split; [reflexivity|]. split.
  - intros key. destruct (visibleOption w) as [[]|]; destruct key; simpl;
      split; intros H; try reflexivity; try discriminate;
      repeat (destruct H as [H|H]; try discriminate); tauto.
  - destruct (visibleOption w) as [[]|]; reflexivity.
Qed.

(** ** offsetPosition *)

Lemma splitSpace_token (x rest : string) :
  hasSpace x = false ->
  splitSpace (x ++ String " "%char rest) = x :: splitSpace rest.
Proof.
  induction x as [|c x IH]; simpl; intros H; [reflexivity|].
  apply orb_false_iff in H. destruct H as [Hc Hx].
  rewrite Hc. now rewrite (IH Hx).
Qed.

Lemma splitSpace_single (x : string) :
  hasSpace x = false -> splitSpace x = [x].
Proof.
  induction x as [|c x IH]; simpl; intros H; [reflexivity|].
  apply orb_false_iff in H. destruct H as [Hc Hx].
  rewrite Hc. now rewrite (IH Hx).
Qed.

Lemma splitSpace_nonempty (s : string) : splitSpace s <> [].
Proof.
  destruct s as [|c s]; simpl; [discriminate|].
  destruct (Ascii.eqb c " "); [discriminate|].
  destruct (splitSpace s); discriminate.
Qed.

Lemma positionOrDefault_given (c : ascii) (s : string) :
  positionOrDefault (Some (String c s)) = String c s.
Proof. reflexivity. Qed.

Lemma append_token_nonempty (x rest : string) :
  exists c s, (x ++ String " "%char rest)%string = String c s.
Proof. destruct x as [|c x]; simpl; eauto. Qed.

(** X12. For a position of two pieces separated by one space, the result
    keeps the first piece as it is and wraps the second as
    [min(calc(y + 1.5rem), 0%)]; whatever follows a second space is
    dropped. *)
Theorem offsetPosition_two_pieces :
  forall (x y : string),
    hasSpace x = false ->
    hasSpace y = false ->
    offsetPosition (Some (x ++ " " ++ y)%string)
      = (x ++ " min(calc(" ++ y ++ " + 1.5rem), 0%)")%string /\
    forall rest,
      offsetPosition (Some (x ++ " " ++ y ++ " " ++ rest)%string)
        = (x ++ " min(calc(" ++ y ++ " + 1.5rem), 0%)")%string.
Proof.
  intros x y Hx Hy. split; [|intros rest]; unfold offsetPosition.
  - destruct (append_token_nonempty x y) as (c & s & E).
    change (x ++ " " ++ y)%string with (x ++ String " "%char y)%string.
    rewrite E, positionOrDefault_given, <- E.
    rewrite (splitSpace_token x y Hx), (splitSpace_single y Hy). reflexivity.
  - destruct (append_token_nonempty x (y ++ String " "%char rest)) as (c & s & E).
    change (x ++ " " ++ y ++ " " ++ rest)%string
      with (x ++ String " "%char (y ++ String " "%char rest))%string.
    rewrite E, positionOrDefault_given, <- E.
    rewrite (splitSpace_token x _ Hx), (splitSpace_token y rest Hy).
    reflexivity.
Qed.

(** X13. A missing position and the empty string both give the result of
    "50% 50%"; a position with no space has no second piece, and the
    word "undefined" is interpolated in its place; the first piece always
    exists. *)
Theorem offsetPosition_missing_pieces :
  offsetPosition None = "50% min(calc(50% + 1.5rem), 0%)"%string /\
  offsetPosition (Some ""%string) = offsetPosition None /\
  (forall x,
     x <> ""%string -> hasSpace x = false ->
     offsetPosition (Some x)
       = (x ++ " min(calc(undefined + 1.5rem), 0%)")%string) /\
  (forall position,
     nth_error (splitSpace (positionOrDefault position)) 0 <> None).
Proof.
  split; [reflexivity|]. split; [reflexivity|]. split.
  - intros x Hne Hx. unfold offsetPosition.
    destruct x as [|c x]; [congruence|].
    rewrite positionOrDefault_given, (splitSpace_single _ Hx). reflexivity.
  - intros position.
    pose proof (splitSpace_nonempty (positionOrDefault position)) as H.
    destruct (splitSpace (positionOrDefault position)); [congruence|].
    discriminate.
Qed.

End Overlay.

(** * Instances on concrete catalogues *)

Lemma onCommand_shows_and_schedules_dismiss_witness :
  reachable readmeKeys (initial enabled) /\
  disableChatPopup (settings (initial enabled)) = false /\
  recognized readmeKeys "nilla" = true /\
  visibleOption (onCommand readmeKeys "nilla" (initial enabled))
    = Some Key_ambassadors /\
  timers (onCommand readmeKeys "nilla" (initial enabled))
    = [mkTimer 1 8000 DismissOverlay] /\
  wakeCalls (onCommand readmeKeys "nilla" (initial enabled)) = [8000] /\
  visibleOption (elapse 8000 (onCommand readmeKeys "nilla" (initial enabled)))
    = None.
Proof.
  pose proof (onCommand_shows_and_schedules_dismiss readmeKeys "nilla"
                (initial enabled) (reachable_initial readmeKeys enabled)
                eq_refl eq_refl)
    as (_ & Hv & _ & Ht & _ & _ & Hw & _ & Hd & _).
  split; [apply reachable_initial|].
  split; [reflexivity|]. split; [reflexivity|].
  split; [apply Hv; discriminate|].
  split; [exact Ht|]. split; [exact Hw|exact Hd].
Defined.

(** C2, as stated, fails: with an ambassador whose key is "welcome", the
    command "welcome" is a known ambassador key and is recorded as the
    subject, yet the panel shown is Welcome, not Ambassadors. *)
Lemma ambassador_key_welcome_shows_welcome_panel :
  disableChatPopup (settings (initial enabled)) = false /\
  welcomeKeys "welcome" = true /\
  commandAmbassador (onCommand welcomeKeys "welcome" (initial enabled))
    = Some "welcome"%string /\
  visibleOption (onCommand welcomeKeys "welcome" (initial enabled))
    = Some Key_welcome /\
  visibleOption (onCommand welcomeKeys "welcome" (initial enabled))
    <> Some Key_ambassadors.
Proof.
  repeat split. vm_compute. discriminate.
Qed.

Lemma onCommand_subject_and_panel_witness :
  disableChatPopup (settings (initial enabled)) = false /\
  readmeKeys "snork" = true /\
  commandAmbassador (onCommand readmeKeys "snork" (initial enabled))
    = Some "snork"%string /\
  visibleOption (onCommand readmeKeys "snork" (initial enabled))
    = Some Key_ambassadors /\
  visibleOption (onCommand readmeKeys "welcome" (initial enabled))
    = Some Key_welcome.
Proof.
  pose proof (onCommand_subject_and_panel readmeKeys "snork"
                (initial enabled) eq_refl) as (Hs & Hp & _).
  pose proof (onCommand_subject_and_panel readmeKeys "welcome"
                (initial enabled) eq_refl) as (_ & _ & Hw).
  split; [reflexivity|]. split; [reflexivity|].
  split; [apply (Hs eq_refl)|].
  split; [apply (Hp eq_refl); discriminate|].
  apply (Hw eq_refl eq_refl).
Defined.

Lemma awokenCallback_consumes_then_cancels_witness :
  reachable readmeKeys (initial enabled) /\
  disableChatPopup (settings (initial enabled)) = false /\
  recognized readmeKeys "welcome" = true /\
  timers (awokenCallback (onCommand readmeKeys "welcome" (initial enabled)))
    = [mkTimer 1 8000 DismissOverlay] /\
  timers (awokenCallback
            (awokenCallback (onCommand readmeKeys "welcome" (initial enabled))))
    = [] /\
  visibleOption
    (elapse 8000
       (awokenCallback
          (awokenCallback (onCommand readmeKeys "welcome" (initial enabled)))))
    = Some Key_welcome.
Proof.
  pose proof (awokenCallback_consumes_then_cancels readmeKeys (initial enabled))
    as (_ & _ & H).
  destruct (H "welcome"%string (reachable_initial readmeKeys enabled)
              eq_refl eq_refl) as (H1 & _ & H2 & _ & H3).
  split; [apply reachable_initial|].
  split; [reflexivity|]. split; [reflexivity|].
  split; [exact H1|]. split; [exact H2|exact (H3 8000)].
Defined.

Lemma single_pending_timer_latest_command_wins_witness :
  reachable readmeKeys (initial enabled) /\
  disableChatPopup (settings (initial enabled)) = false /\
  recognized readmeKeys "nilla" = true /\
  recognized readmeKeys "welcome" = true /\
  timers (twoCommands readmeKeys "nilla" 1000 "welcome" (initial enabled))
    = [mkTimer 2 9000 DismissOverlay] /\
  visibleOption
    (elapse 7000 (twoCommands readmeKeys "nilla" 1000 "welcome" (initial enabled)))
    = Some Key_welcome /\
  fired
    (elapse 8000 (twoCommands readmeKeys "nilla" 1000 "welcome" (initial enabled)))
    = [(2, 9000)].
Proof.
  pose proof (single_pending_timer_latest_command_wins readmeKeys) as (_ & _ & H).
  destruct (H "nilla"%string "welcome"%string (initial enabled)
              (reachable_initial readmeKeys enabled) eq_refl eq_refl eq_refl)
    as (_ & H1 & H2 & _ & H3 & _).
  split; [apply reachable_initial|].
  split; [reflexivity|]. split; [reflexivity|]. split; [reflexivity|].
  split; [exact H1|].
  split; [apply (H2 7000); reflexivity|exact H3].
Defined.

Lemma onCommand_unrecognized_ignored_witness :
  readmeKeys "hello" = false /\
  "hello"%string <> "welcome"%string /\
  onCommand readmeKeys "hello" (initial enabled) = initial enabled.
Proof.
  assert (Hne : "hello"%string <> "welcome"%string) by discriminate.
  split; [reflexivity|]. split; [exact Hne|].
  exact (onCommand_unrecognized_ignored readmeKeys "hello" (initial enabled)
           eq_refl Hne).
Defined.

(** C6, as stated, fails: a surface whose colour is fully transparent
    but is not written rgba(0, 0, 0, 0) has no non-transparent background
    in the specification's words, yet with it ahead of the body the click
    is ignored and the panel stays. *)
Lemma transparent_tint_ahead_of_body_keeps_panel :
  isBody glassDiv = false /\
  specNonTransparent glassDiv = false /\
  isBody documentBody = true /\
  bodyClick [glassDiv; documentBody]
            (setVisibleOption (Some Key_ambassadors) (initial enabled))
    = setVisibleOption (Some Key_ambassadors) (initial enabled) /\
  visibleOption
    (bodyClick [glassDiv; documentBody]
               (setVisibleOption (Some Key_ambassadors) (initial enabled)))
    <> None.
Proof.
  repeat split. vm_compute. discriminate.
Qed.

Lemma bodyClick_inside_ignored_outside_dismisses_witness :
  hasBackground cardDiv = true /\
  bodyClick [transparentDiv; cardDiv; documentBody]
            (setVisibleOption (Some Key_ambassadors) (initial enabled))
    = setVisibleOption (Some Key_ambassadors) (initial enabled) /\
  bodyClick [transparentDiv; documentBody; cardDiv]
            (setVisibleOption (Some Key_ambassadors) (initial enabled))
    = setVisibleOption None
        (setVisibleOption (Some Key_ambassadors) (initial enabled)).
Proof.
  pose proof (bodyClick_inside_ignored_outside_dismisses
                (setVisibleOption (Some Key_ambassadors) (initial enabled)))
    as (_ & Hin & Hout & _).
  split; [reflexivity|]. split.
  - apply (Hin [transparentDiv] cardDiv [documentBody]); try reflexivity.
    intros x [E|[]]. now subst x.
  - apply (Hout [transparentDiv] documentBody [cardDiv]); try reflexivity.
    intros x [E|[]]. now subst x.
Defined.

Lemma onCommand_disabled_noop_witness :
  disableChatPopup (settings (initial disabled)) = true /\
  onCommand readmeKeys "nilla" (initial disabled) = initial disabled.
Proof.
  split; [reflexivity|].
  exact (onCommand_disabled_noop readmeKeys "nilla" (initial disabled) eq_refl).
Defined.

Lemma unmountCleanup_freezes_state_witness :
  reachable readmeKeys (initial enabled) /\
  disableChatPopup (settings (initial enabled)) = false /\
  recognized readmeKeys "welcome" = true /\
  timers (onCommand readmeKeys "welcome" (initial enabled))
    = [mkTimer 1 8000 DismissOverlay] /\
  visibleOption
    (elapse 9000 (unmountCleanup (onCommand readmeKeys "welcome" (initial enabled))))
    = Some Key_welcome.
Proof.
  pose proof (unmountCleanup_freezes_state readmeKeys (initial enabled)
                (reachable_initial readmeKeys enabled)) as (_ & _ & _ & _ & H).
  destruct (H "welcome"%string eq_refl eq_refl) as (H1 & H2).
  split; [apply reachable_initial|].
  split; [reflexivity|]. split; [reflexivity|].
  split; [exact H1|exact (proj1 (H2 9000))].
Defined.

Lemma clearTimeout_idempotent_noop_witness :
  reachable readmeKeys (initial enabled) /\
  disableChatPopup (settings (initial enabled)) = false /\
  recognized readmeKeys "nilla" = true /\
  fired (elapse 8000 (awokenCallback (onCommand readmeKeys "nilla" (initial enabled))))
    = [(1, 8000)] /\
  awokenCallback
    (elapse 8000 (awokenCallback (onCommand readmeKeys "nilla" (initial enabled))))
  = elapse 8000 (awokenCallback (onCommand readmeKeys "nilla" (initial enabled))) /\
  ~ In 7 (map timerId (timers (initial enabled))) /\
  clearTimeout 7 (initial enabled) = initial enabled.
Proof.
  pose proof (clearTimeout_idempotent_noop readmeKeys) as (_ & Habs & _ & H).
  destruct (H "nilla"%string (initial enabled)
              (reachable_initial readmeKeys enabled) eq_refl eq_refl)
    as (H1 & _ & H2 & _).
  assert (Hn : ~ In 7 (map timerId (timers (initial enabled))))
    by (simpl; tauto).
  split; [apply reachable_initial|].
  split; [reflexivity|]. split; [reflexivity|].
  split; [exact H1|]. split; [exact H2|].
  split; [exact Hn|exact (Habs 7 (initial enabled) Hn)].
Defined.

Lemma dismissal_keeps_commandAmbassador_witness :
  forallb (fun ev => negb (isChatCommand ev))
          [Elapse 8000; BodyClick [documentBody]] = true /\
  commandAmbassador
    (run readmeKeys [Elapse 8000; BodyClick [documentBody]]
       (onCommand readmeKeys "snork" (initial enabled)))
    = Some "snork"%string /\
  visibleOption
    (run readmeKeys
       ([Elapse 8000; BodyClick [documentBody]]
        ++ [ButtonClick (Some Key_ambassadors)])
       (onCommand readmeKeys "snork" (initial enabled)))
    = Some Key_ambassadors.
Proof.
  pose proof (dismissal_keeps_commandAmbassador readmeKeys) as (_ & _ & _ & _ & H).
  destruct (H [Elapse 8000; BodyClick [documentBody]]
              (onCommand readmeKeys "snork" (initial enabled)) eq_refl)
    as (H1 & _ & H2).
  split; [reflexivity|]. split; [exact H1|exact H2].
Defined.

Lemma commandAmbassador_is_ambassador_key_witness :
  reachable readmeKeys (onCommand readmeKeys "nilla" (initial enabled)) /\
  commandAmbassador (onCommand readmeKeys "nilla" (initial enabled))
    = Some "nilla"%string /\
  readmeKeys "nilla" = true.
Proof.
  assert (Hr : reachable readmeKeys (onCommand readmeKeys "nilla" (initial enabled)))
    by exact (reachable_step readmeKeys (initial enabled) (ChatCommand "nilla")
                (reachable_initial readmeKeys enabled)).
  split; [exact Hr|]. split; [reflexivity|].
  exact (commandAmbassador_is_ambassador_key readmeKeys _ "nilla"%string
           Hr eq_refl).
Defined.

Lemma wake_once_per_timeout_witness :
  reachable readmeKeys (onCommand readmeKeys "nilla" (initial enabled)) /\
  Forall (fun t => t = 8000)
         (wakeCalls (onCommand readmeKeys "nilla" (initial enabled))) /\
  N.of_nat (length (wakeCalls (onCommand readmeKeys "nilla" (initial enabled)))) + 1
    = nextTimer (onCommand readmeKeys "nilla" (initial enabled)).
Proof.
  assert (Hr : reachable readmeKeys (onCommand readmeKeys "nilla" (initial enabled)))
    by exact (reachable_step readmeKeys (initial enabled) (ChatCommand "nilla")
                (reachable_initial readmeKeys enabled)).
  destruct (wake_once_per_timeout readmeKeys _ Hr) as (H1 & H2 & _).
  split; [exact Hr|]. split; [exact H1|exact H2].
Defined.

Lemma timeout_runs_at_most_once_witness :
  reachable readmeKeys
    (elapse 8000 (onCommand readmeKeys "nilla" (initial enabled))) /\
  NoDup (map fst (fired (elapse 8000
                           (onCommand readmeKeys "nilla" (initial enabled))))).
Proof.
  assert (Hr : reachable readmeKeys
                 (elapse 8000 (onCommand readmeKeys "nilla" (initial enabled)))).
  { apply (reachable_step readmeKeys _ (Elapse 8000)).
    exact (reachable_step readmeKeys (initial enabled) (ChatCommand "nilla")
             (reachable_initial readmeKeys enabled)). }
  split; [exact Hr|].
  exact (proj1 (timeout_runs_at_most_once readmeKeys _ Hr)).
Defined.

Lemma pending_dismiss_closes_within_delay_witness :
  reachable readmeKeys (onCommand readmeKeys "welcome" (initial enabled)) /\
  In (mkTimer 1 8000 DismissOverlay)
     (timers (onCommand readmeKeys "welcome" (initial enabled))) /\
  visibleOption (elapse 8000 (onCommand readmeKeys "welcome" (initial enabled)))
    = None.
Proof.
  assert (Hr : reachable readmeKeys
                 (onCommand readmeKeys "welcome" (initial enabled)))
    by exact (reachable_step readmeKeys (initial enabled) (ChatCommand "welcome")
                (reachable_initial readmeKeys enabled)).
  assert (Hin : In (mkTimer 1 8000 DismissOverlay)
                   (timers (onCommand readmeKeys "welcome" (initial enabled))))
    by (simpl; now left).
  destruct (pending_dismiss_closes_within_delay readmeKeys _ _ Hr Hin)
    as (_ & _ & H).
  split; [exact Hr|]. split; [exact Hin|].
  apply (H 8000). lia.
Defined.


Lemma settings_panel_only_from_buttons_witness :
  forallb (fun ev => negb (opensSettings ev))
    [ChatCommand "nilla"; Awoken; Elapse 8000; ButtonClick (Some Key_welcome)]
    = true /\
  visibleOption (initial enabled) <> Some Key_settings /\
  visibleOption
    (run readmeKeys
       [ChatCommand "nilla"; Awoken; Elapse 8000; ButtonClick (Some Key_welcome)]
       (initial enabled))
    <> Some Key_settings.
Proof.
  assert (Hv : visibleOption (initial enabled) <> Some Key_settings)
    by discriminate.
  split; [reflexivity|]. split; [exact Hv|].
  exact (settings_panel_only_from_buttons readmeKeys
           [ChatCommand "nilla"; Awoken; Elapse 8000;
            ButtonClick (Some Key_welcome)]
           (initial enabled) eq_refl Hv).
Defined.

Lemma disabled_popup_never_wakes_witness :
  disableChatPopup (settings (initial disabled)) = true /\
  forallb keepsDisabled
    [ChatCommand "nilla"; Awoken; NewSettings disabled; ChatCommand "welcome"]
    = true /\
  wakeCalls
    (run readmeKeys
       [ChatCommand "nilla"; Awoken; NewSettings disabled; ChatCommand "welcome"]
       (initial disabled))
    = [].
Proof.
  destruct (disabled_popup_never_wakes readmeKeys
              [ChatCommand "nilla"; Awoken; NewSettings disabled;
               ChatCommand "welcome"]
              (initial disabled) eq_refl eq_refl) as (H & _).
  split; [reflexivity|]. split; [reflexivity|exact H].
Defined.

Lemma elapse_splits_witness :
  reachable readmeKeys (onCommand readmeKeys "nilla" (initial enabled)) /\
  elapse 5000 (elapse 3000 (onCommand readmeKeys "nilla" (initial enabled)))
    = elapse (3000 + 5000) (onCommand readmeKeys "nilla" (initial enabled)).
Proof.
  assert (Hr : reachable readmeKeys (onCommand readmeKeys "nilla" (initial enabled)))
    by exact (reachable_step readmeKeys (initial enabled) (ChatCommand "nilla")
                (reachable_initial readmeKeys enabled)).
  split; [exact Hr|].
  exact (elapse_splits readmeKeys 3000 5000 _ Hr).
Defined.

Lemma offsetPosition_two_pieces_witness :
  hasSpace "50%" = false /\
  hasSpace "25%" = false /\
  offsetPosition (Some "50% 25%"%string)
    = "50% min(calc(25% + 1.5rem), 0%)"%string.
Proof.
  split; [reflexivity|]. split; [reflexivity|].
  exact (proj1 (offsetPosition_two_pieces "50%" "25%" eq_refl eq_refl)).
Defined.

Lemma offsetPosition_missing_pieces_witness :
  "50%"%string <> ""%string /\
  hasSpace "50%" = false /\
  offsetPosition (Some "50%"%string)
    = "50% min(calc(undefined + 1.5rem), 0%)"%string.
Proof.
  assert (Hne : "50%"%string <> ""%string) by discriminate.
  destruct offsetPosition_missing_pieces as (_ & _ & H & _).
  split; [exact Hne|]. split; [reflexivity|].
  exact (H "50%"%string Hne eq_refl).
Defined.
